(** * TravelAgent_FetchAI: the hotel back end and the Google Places client

    A shallow embedding of [hotels_tool/hotel_backend.py] and of
    [google_places_tool/google_places_client.py], and the properties of the
    specification established on it.

    Conventions of the embedding.
    - A Python [str] is a Rocq [string], read as ASCII text.
    - A parsed JSON document is a [json] tree; Python's [None] and JSON's
      [null] are the same value [JNull].  A [dict] keeps its insertion order,
      so it is an association list; [dict.get] reads the first binding.
    - A Python [float] is an IEEE 754 binary64 number, a [spec_float] handled
      with the operations of [SpecFloat] at precision 53.
    - Code that may raise returns a [result]; [try]/[except] is [try_except].
    - Mutable accumulators ([found], [out], [seen]) are threaded explicitly. *)

From Stdlib Require Import ZArith String Ascii List Bool Lia.
From Stdlib Require Import Floats.SpecFloat.
From stdpp Require Import base decidable option list gmap strings pretty.

Import ListNotations.
Local Open Scope string_scope.
Local Open Scope list_scope.
Local Open Scope Z_scope.

(** ** Exceptions and results *)

Inductive exn : Type :=
| BrightDataError (msg : string)
| ValueError
| TypeError
| OverflowError
| AttributeError
| HTTPStatusError (status : Z)
| TransportError
| JSONDecodeError.

Inductive result (A : Type) : Type :=
| Ok (a : A)
| Raise (e : exn).
Arguments Ok {A} a.
Arguments Raise {A} e.

#[global] Instance result_ret : MRet result := fun A a => Ok a.
#[global] Instance result_bind : MBind result := fun A B k m =>
  match m with
  | Ok a => k a
  | Raise e => Raise e
  end.

(** [try: body except Exception: handler].  Every [exn] above is a subclass
    of [Exception]; [BrightDataError] derives from [RuntimeError]. *)
Definition try_except {A} (body : result A) (handler : exn -> result A) : result A :=
  match body with
  | Ok a => Ok a
  | Raise e => handler e
  end.

(** [except BrightDataError as e]: only that class is handled. *)
Definition try_except_BrightDataError {A}
    (body : result A) (handler : string -> result A) : result A :=
  match body with
  | Raise (BrightDataError msg) => handler msg
  | other => other
  end.

(** ** Floats *)

Definition float := spec_float.

Definition prec : Z := 53.
Definition emax : Z := 1024.

(** The float nearest to an integer (round to nearest, ties to even);
    infinite past the largest finite double. *)
Definition float_of_Z (z : Z) : float := binary_normalize prec emax z 0 false.

Definition fmul (x y : float) : float := SFmul prec emax x y.
Definition fdiv (x y : float) : float := SFdiv prec emax x y.

Definition float_is_zero (f : float) : bool :=
  match f with S754_zero _ => true | _ => false end.

Definition float_is_finite (f : float) : bool :=
  match f with S754_zero _ | S754_finite _ _ _ => true | _ => false end.

(** The literal [3.5]. *)
Definition f3_5 : float := Eval vm_compute in binary_normalize prec emax 7 (-1) false.

(** [float(n)] for an [int]: [OverflowError] when [n] is too large. *)
Definition float_of_int (z : Z) : result float :=
  let f := float_of_Z z in
  if float_is_finite f then Ok f else Raise OverflowError.

(** [round(x, 2)]: infinities and NaN round to themselves; a finite [x] goes
    to the double nearest to its exact value rounded half-even to two
    decimals.  A double with a non-negative exponent is an integer and is
    returned as it is. *)
Definition round_half_even (n d : Z) : Z :=
  let q := n / d in
  let r := n mod d in
  match Z.compare (2 * r) d with
  | Lt => q
  | Gt => q + 1
  | Eq => if Z.even q then q else q + 1
  end.

Definition round2 (x : float) : float :=
  match x with
  | S754_finite s m e =>
      if 0 <=? e then x
      else
        let hundredths := round_half_even (100 * Zpos m) (2 ^ (- e)) in
        match hundredths with
        | Zpos h => fdiv (S754_finite s h 0) (float_of_Z 100)
        | _ => S754_zero s
        end
  | _ => x
  end.

(** ** JSON values *)

#[local] Unset Elimination Schemes.
Inductive json : Type :=
| JNull
| JBool (b : bool)
| JInt (z : Z)
| JFloat (f : float)
| JStr (s : string)
| JArr (items : list json)
| JObj (members : list (string * json)).
#[local] Set Elimination Schemes.

Definition dict := list (string * json).

(** Python truthiness, the test behind [or], [and], [not] and [if]. *)
Definition truthy (v : json) : bool :=
  match v with
  | JNull => false
  | JBool b => b
  | JInt z => negb (z =? 0)
  | JFloat f => negb (float_is_zero f)
  | JStr s => negb (String.eqb s "")
  | JArr items => match items with [] => false | _ => true end
  | JObj members => match members with [] => false | _ => true end
  end.

(** [a or b] *)
Definition py_or (a b : json) : json := if truthy a then a else b.

(** [d.get(k)] and [d.get(k, default)] *)
Fixpoint dict_lookup (k : string) (d : dict) : option json :=
  match d with
  | [] => None
  | (k', v) :: rest => if String.eqb k k' then Some v else dict_lookup k rest
  end.

Definition dict_get_default (d : dict) (k : string) (dflt : json) : json :=
  match dict_lookup k d with Some v => v | None => dflt end.

Definition dict_get (d : dict) (k : string) : json := dict_get_default d k JNull.

(** [d.values()], in insertion order *)
Definition dict_values (d : dict) : list json := map snd d.

(** [s.startswith(p)] *)
Fixpoint startswith (p s : string) : bool :=
  match p, s with
  | EmptyString, _ => true
  | String a p', String b s' => Ascii.eqb a b && startswith p' s'
  | String _ _, EmptyString => false
  end.

(** ** Characters and text *)

Definition char_between (lo hi : N) (c : ascii) : bool :=
  let n := N_of_ascii c in ((lo <=? n) && (n <=? hi))%N.

(** [\d] on ASCII text *)
Definition is_digit (c : ascii) : bool := char_between 48 57 c.

Definition digit_value (c : ascii) : Z := Z.of_N (N_of_ascii c) - 48.

(** [c.upper()] on ASCII text *)
Definition upper_char (c : ascii) : ascii :=
  if char_between 97 122 c then ascii_of_N (N_of_ascii c - 32) else c.

(** [s.upper()] *)
Fixpoint upper (s : string) : string :=
  match s with
  | EmptyString => EmptyString
  | String c rest => String (upper_char c) (upper rest)
  end.

(** [int(s)] for a string of decimal digits, most significant first *)
Fixpoint int_of_digits_from (acc : Z) (s : string) : Z :=
  match s with
  | EmptyString => acc
  | String c rest => int_of_digits_from (10 * acc + digit_value c) rest
  end.

Definition int_of_digits (s : string) : Z := int_of_digits_from 0 s.

(** [str(n)] for an [int] *)
Definition str_of_int (n : Z) : string := pretty n.

(** ** [urllib.parse.quote_plus] and [urlencode] *)

Definition hex_digit (n : N) : ascii :=
  if (n <? 10)%N then ascii_of_N (48 + n) else ascii_of_N (55 + n).

(** [quote_plus] on ASCII text, where it always returns.  (On a [str] with
    a lone surrogate urllib's [quote_plus] raises [UnicodeEncodeError]; such
    text has no counterpart among the strings of this embedding.)
    Letters, digits and [_.-~] are never quoted. *)
Definition is_unreserved (c : ascii) : bool :=
  char_between 65 90 c || char_between 97 122 c || is_digit c
  || Ascii.eqb c "_" || Ascii.eqb c "." || Ascii.eqb c "-" || Ascii.eqb c "~".

Fixpoint quote_plus (s : string) : string :=
  match s with
  | EmptyString => EmptyString
  | String c rest =>
      if is_unreserved c then String c (quote_plus rest)
      else if Ascii.eqb c " " then String "+" (quote_plus rest)
      else
        let n := N_of_ascii c in
        String "%" (String (hex_digit (n / 16)) (String (hex_digit (n mod 16)) (quote_plus rest)))
  end.

Fixpoint join (sep : string) (parts : list string) : string :=
  match parts with
  | [] => ""
  | [p] => p
  | p :: rest => p +:+ sep +:+ join sep rest
  end.

(** [urlencode(q, quote_via=quote_plus)] for a dict of strings *)
Definition urlencode (q : list (string * string)) : string :=
  join "&" (map (fun kv => quote_plus (fst kv) +:+ "=" +:+ quote_plus (snd kv)) q).

(** ** Calendar dates ([datetime.date]) *)

Record date := mk_date { year : Z; month : Z; day : Z }.

Definition _is_leap (y : Z) : bool :=
  (y mod 4 =? 0) && (negb (y mod 100 =? 0) || (y mod 400 =? 0)).

Definition _DAYS_IN_MONTH (m : Z) : Z :=
  match m with
  | 1 => 31 | 2 => 28 | 3 => 31 | 4 => 30 | 5 => 31 | 6 => 30
  | 7 => 31 | 8 => 31 | 9 => 30 | 10 => 31 | 11 => 30 | 12 => 31
  | _ => 0
  end.

Definition _DAYS_BEFORE_MONTH (m : Z) : Z :=
  match m with
  | 1 => 0 | 2 => 31 | 3 => 59 | 4 => 90 | 5 => 120 | 6 => 151
  | 7 => 181 | 8 => 212 | 9 => 243 | 10 => 273 | 11 => 304 | 12 => 334
  | _ => 0
  end.

Definition _days_in_month (y m : Z) : Z :=
  if (m =? 2) && _is_leap y then 29 else _DAYS_IN_MONTH m.

Definition _days_before_year (y : Z) : Z :=
  let y1 := y - 1 in y1 * 365 + y1 / 4 - y1 / 100 + y1 / 400.

Definition _days_before_month (y m : Z) : Z :=
  _DAYS_BEFORE_MONTH m + (if (2 <? m) && _is_leap y then 1 else 0).

(** [d.toordinal()]: 1 January of year 1 is day 1. *)
Definition toordinal (d : date) : Z :=
  _days_before_year (year d) + _days_before_month (year d) (month d) + day d.

(** What the constructor [date(y, m, d)] accepts. *)
Definition valid_date (d : date) : bool :=
  (1 <=? year d) && (year d <=? 9999) && (1 <=? month d) && (month d <=? 12)
  && (1 <=? day d) && (day d <=? _days_in_month (year d) (month d)).

(** [(d1 - d0).days] *)
Definition days_between (d0 d1 : date) : Z := toordinal d1 - toordinal d0.

(** The day after [d] in the calendar, used to check [toordinal]. *)
Definition next_day (d : date) : date :=
  if day d <? _days_in_month (year d) (month d) then mk_date (year d) (month d) (day d + 1)
  else if month d <? 12 then mk_date (year d) (month d + 1) 1
  else mk_date (year d + 1) 1 1.

(** ** [datetime.strptime(s, "%Y-%m-%d")]

    The format compiles to the regular expression
    [(?P<Y>\d\d\d\d)-(?P<m>1[0-2]|0[1-9]|[1-9])-(?P<d>3[0-1]|[1-2]\d|0[1-9]|[1-9]| [1-9])],
    matched at the start of the text.  Each group is a parser returning its
    matches in the order the regular expression tries them. *)

Definition parser (A : Type) := string -> list (A * string).

Definition re_char (ok : ascii -> bool) : parser ascii := fun s =>
  match s with
  | String c rest => if ok c then [(c, rest)] else []
  | EmptyString => []
  end.

Definition re_lit (c : ascii) : parser ascii := re_char (Ascii.eqb c).

(** Two characters read as a two-digit number. *)
Definition re_two (ok1 ok2 : ascii -> bool) : parser Z := fun s =>
  '(a, s1) ← re_char ok1 s;
  '(b, s2) ← re_char ok2 s1;
  [(10 * digit_value a + digit_value b, s2)].

Definition re_one (ok : ascii -> bool) : parser Z := fun s =>
  '(a, s1) ← re_char ok s; [(digit_value a, s1)].

Definition re_Y : parser Z := fun s =>
  '(a, s1) ← re_char is_digit s;
  '(b, s2) ← re_char is_digit s1;
  '(c, s3) ← re_char is_digit s2;
  '(d, s4) ← re_char is_digit s3;
  [(1000 * digit_value a + 100 * digit_value b + 10 * digit_value c + digit_value d, s4)].

(** [p|q]: the matches of [p], then those of [q]. *)
Definition re_alt {A} (p q : parser A) : parser A := fun s => p s ++ q s.
Infix "<|>" := re_alt (at level 50, left associativity).

Definition re_m : parser Z :=
  re_two (Ascii.eqb "1") (char_between 48 50)
  <|> re_two (Ascii.eqb "0") (char_between 49 57)
  <|> re_one (char_between 49 57).

Definition re_d : parser Z :=
  re_two (Ascii.eqb "3") (char_between 48 49)
  <|> re_two (char_between 49 50) is_digit
  <|> re_two (Ascii.eqb "0") (char_between 49 57)
  <|> re_one (char_between 49 57)
  <|> (fun s => '(_, s1) ← re_lit " " s; re_one (char_between 49 57) s1).

Definition re_Ymd : parser date := fun s =>
  '(y, s1) ← re_Y s;
  '(_, s2) ← re_lit "-" s1;
  '(m, s3) ← re_m s2;
  '(_, s4) ← re_lit "-" s3;
  '(d, s5) ← re_d s4;
  [(mk_date y m d, s5)].

(** No match, unconverted text after the match, and a date the calendar
    does not have are all [ValueError]. *)
Definition strptime_Ymd (s : string) : result date :=
  match re_Ymd s with
  | [] => Raise ValueError
  | (d, rest) :: _ =>
      if negb (String.eqb rest "") then Raise ValueError
      else if valid_date d then Ok d
      else Raise ValueError
  end.

(** * hotels_tool/hotel_backend.py *)

Module hotel_backend.

(** The two environment variables read when the module is loaded. *)
Record Env := {
  BRIGHT_API_KEY : option string;
  BRIGHT_SERP_ZONE : option string;
}.

Definition API_ENDPOINT : string := "https://api.brightdata.com/request".

Definition CITY_MAP_items : list (string * string) :=
  [ ("NYC", "New York"); ("JFK", "New York"); ("LGA", "New York"); ("EWR", "New York");
    ("MIA", "Miami"); ("FLL", "Fort Lauderdale"); ("MCO", "Orlando");
    ("LAX", "Los Angeles"); ("SFO", "San Francisco"); ("SEA", "Seattle");
    ("BOS", "Boston"); ("DFW", "Dallas"); ("ORD", "Chicago");
    ("IAD", "Washington"); ("DCA", "Washington"); ("LAS", "Las Vegas"); ("PHX", "Phoenix") ].

Definition CITY_MAP : gmap string string := list_to_map CITY_MAP_items.

(** [not v] for an optional string: unset or empty *)
Definition not_str (v : option string) : bool :=
  match v with
  | None => true
  | Some s => String.eqb s ""
  end.

Definition creds_error : string := "Set BRIGHTDATA_API_KEY and BRIGHTDATA_SERP_ZONE env vars".

Definition _require_creds (env : Env) : result unit :=
  if not_str (BRIGHT_API_KEY env) || not_str (BRIGHT_SERP_ZONE env)
  then Raise (BrightDataError creds_error)
  else Ok tt.

(** The body of the [try] in [_nights]. *)
Definition _nights_try (checkin checkout : string) : result Z :=
  d0 ← strptime_Ymd checkin;
  d1 ← strptime_Ymd checkout;
  mret (Z.max 1 (days_between d0 d1)).

Definition _nights (checkin checkout : string) : result Z :=
  try_except (_nights_try checkin checkout) (fun _ => Ok 1).

(** ** The gateway call *)

Record Request := {
  req_endpoint : string;
  req_headers : list (string * string);
  req_json : dict;
  req_timeout_s : Z;
}.

(** A response: its status code and what [resp.json()] gives. *)
Record Response := {
  status_code : Z;
  resp_json : result json;
}.

(** [resp.raise_for_status()] of httpx: anything but 2xx raises. *)
Definition raise_for_status (resp : Response) : result unit :=
  if (200 <=? status_code resp) && (status_code resp <? 300) then Ok tt
  else Raise (HTTPStatusError (status_code resp)).

Definition str_of_opt (v : option string) : string :=
  match v with Some s => s | None => "None" end.

Definition json_of_opt (v : option string) : json :=
  match v with Some s => JStr s | None => JNull end.

Section Gateway.
(** [httpx.post]: the transport, a collaborator outside the repository. *)
Variable post : Request -> result Response.
Variable env : Env.

Definition serp_direct (url : string) : result Response :=
  _require_creds env;;
  let headers := [ ("Authorization", "Bearer " +:+ str_of_opt (BRIGHT_API_KEY env));
                   ("Content-Type", "application/json") ] in
  let payload := [ ("zone", json_of_opt (BRIGHT_SERP_ZONE env));
                   ("url", JStr url); ("format", JStr "raw") ] in
  resp ← post {| req_endpoint := API_ENDPOINT; req_headers := headers;
                 req_json := payload; req_timeout_s := 60 |};
  raise_for_status resp;;
  mret resp.
End Gateway.

(** ** The recursive extractor *)

(** Builtins of the interpreter whose definition lies outside the repository
    and which the extractor calls on arbitrary JSON values. *)
Record Runtime := {
  (** [repr(v)], which is [str(v)] for every value that is not a [str] *)
  py_repr : json -> string;
  (** [float(s)] for a [str] *)
  py_float_of_str : string -> result float;
  (** the order in which [for k in URL_KEYS] meets the keys of the set *)
  URL_KEYS_iter : list string;
}.

Definition URL_KEYS : list string :=
  ["url"; "link"; "g_url"; "maps_url"; "hotel_url"; "booking_url"; "result_url"; "place_link"].

(** A row appended to [found] by [walk]. *)
Record Candidate := {
  c_name : string;
  c_rating : option float;
  c_price_text : option string;
  c_address : json;
  c_url : option string;
}.

(** A row of the list returned by [_extract_hotels_from_serp_json]. *)
Record Row := {
  r_name : string;
  r_rating : option float;
  r_area : json;
  r_price_usd : option float;
  r_url : option string;
}.

(** [re.search] with the pattern of [_to_price_usd], a digit followed by any
    run of digits and commas: the leftmost digit of the text and the longest
    such run after it. *)
Definition is_digit_or_comma (c : ascii) : bool := is_digit c || Ascii.eqb c ",".

Fixpoint take_while (ok : ascii -> bool) (s : string) : string :=
  match s with
  | EmptyString => EmptyString
  | String c rest => if ok c then String c (take_while ok rest) else EmptyString
  end.

Fixpoint re_search_price (s : string) : option string :=
  match s with
  | EmptyString => None
  | String c rest =>
      if is_digit c then Some (String c (take_while is_digit_or_comma rest))
      else re_search_price rest
  end.

(** [t.replace(",", "")] *)
Fixpoint remove_commas (s : string) : string :=
  match s with
  | EmptyString => EmptyString
  | String c rest => if Ascii.eqb c "," then remove_commas rest else String c (remove_commas rest)
  end.

(** [float(t)] for a non-empty string of decimal digits: the nearest double,
    infinite when the number is too large. *)
Definition float_of_digits (t : string) : float := float_of_Z (int_of_digits t).

Definition _to_price_usd (s : option string) : option float :=
  match s with
  | None => None
  | Some s =>
      if String.eqb s "" then None
      else match re_search_price s with
           | Some m => Some (float_of_digits (remove_commas m))
           | None => None
           end
  end.

Section Extractor.
Context (rt : Runtime).

(** [str(v)] *)
Definition py_str (v : json) : string :=
  match v with
  | JStr s => s
  | _ => py_repr rt v
  end.

(** [float(v)] *)
Definition py_float (v : json) : result float :=
  match v with
  | JFloat f => Ok f
  | JInt z => float_of_int z
  | JBool b => Ok (float_of_Z (if b then 1 else 0))
  | JStr s => py_float_of_str rt s
  | JNull | JArr _ | JObj _ => Raise TypeError
  end.

Definition _to_float (v : json) : option float :=
  match py_float v with
  | Ok f => Some f
  | Raise _ => None
  end.

Fixpoint _pick_url_from (keys : list string) (d : dict) : option string :=
  match keys with
  | [] => None
  | k :: keys' =>
      match dict_get d k with
      | JStr v => if startswith "http" v then Some v else _pick_url_from keys' d
      | _ => _pick_url_from keys' d
      end
  end.

Definition _pick_url (d : dict) : option string := _pick_url_from (URL_KEYS_iter rt) d.

Definition node_name (node : dict) : json :=
  py_or (dict_get node "name") (dict_get node "title").
Definition node_rating (node : dict) : json :=
  py_or (dict_get node "overall_rating")
    (py_or (dict_get node "rating") (py_or (dict_get node "stars") (dict_get node "star_rating"))).
Definition node_price_text (node : dict) : json :=
  py_or (dict_get node "price_text")
    (py_or (dict_get node "price") (py_or (dict_get node "rate") (dict_get node "rate_per_night"))).
Definition node_address (node : dict) : json :=
  py_or (dict_get node "address")
    (py_or (dict_get node "neighborhood") (py_or (dict_get node "vicinity") (dict_get node "location"))).

(** [name and (rating or price_text)] *)
Definition qualifies (node : dict) : bool :=
  truthy (node_name node) && (truthy (node_rating node) || truthy (node_price_text node)).

Definition candidate_of (node : dict) : Candidate :=
  {| c_name := py_str (node_name node);
     c_rating := _to_float (node_rating node);
     c_price_text := match node_price_text node with
                     | JNull => None
                     | p => Some (py_str p)
                     end;
     c_address := node_address node;
     c_url := _pick_url node |}.

(** The part of [walk] before the recursive calls on a dict. *)
Definition visit (node : dict) (found : list Candidate) : list Candidate :=
  if qualifies node then found ++ [candidate_of node] else found.

(** [walk(node)], with the list [found] it appends to passed in and out. *)
Fixpoint walk (node : json) (found : list Candidate) {struct node} : list Candidate :=
  match node with
  | JObj members =>
      fold_left (fun acc kv => walk (snd kv) acc) members (visit members found)
  | JArr items =>
      fold_left (fun acc v => walk v acc) items found
  | _ => found
  end.

Definition row_of (h : Candidate) : Row :=
  {| r_name := c_name h;
     r_rating := c_rating h;
     r_area := c_address h;
     r_price_usd := _to_price_usd (c_price_text h);
     r_url := c_url h |}.

(** The loop [for h in found], with [out] and [seen] passed along; it
    returns [out] at the [break] and at the end of [found]. *)
Fixpoint dedup_loop (limit : Z) (found : list Candidate)
    (out : list Row) (seen : gset string) : list Row :=
  match found with
  | [] => out
  | h :: rest =>
      if decide (c_name h ∈ seen) then dedup_loop limit rest out seen
      else
        let seen' := seen ∪ {[ c_name h ]} in
        let out' := out ++ [row_of h] in
        if Z.of_nat (length out') >=? limit then out'
        else dedup_loop limit rest out' seen'
  end.

Definition _extract_hotels_from_serp_json (data : json) (limit : Z) : list Row :=
  let found := walk data [] in
  dedup_loop limit found [] ∅.
End Extractor.

(** ** [search_hotels_google] *)

(** An element of the list returned by [search_hotels_google]. *)
Record Hotel := {
  h_name : string;
  h_area : json;
  h_stars : float;
  h_price_per_night_usd : option float;
  h_total_usd : option float;
  h_url : string;
}.

(** [CITY_MAP.get(city_or_iata.upper(), city_or_iata)] *)
Definition resolve_city (city_or_iata : string) : string :=
  default city_or_iata (CITY_MAP !! upper city_or_iata).

Definition hotels_url (city checkin checkout : string) (adults : Z)
    (currency country lang : string) : string :=
  let q := [ ("q", "hotels in " +:+ city);
             ("gl", country); ("hl", lang);
             ("brd_dates", checkin +:+ "," +:+ checkout);
             ("brd_occupancy", str_of_int adults);
             ("brd_currency", currency);
             ("brd_json", "1") ] in
  "https://www.google.com/travel/hotels?" +:+ urlencode q.

Definition fallback_url (name city : string) : string :=
  "https://www.google.com/maps/search/?api=1&query=" +:+ quote_plus (name +:+ " " +:+ city).

(** The body of the loop [for r in rows]. *)
Definition assemble (city : string) (nights : Z) (r : Row) : Hotel :=
  let name := if String.eqb (r_name r) "" then "Hotel" else r_name r in
  let area := py_or (r_area r) (JStr "Central") in
  let stars := match r_rating r with
               | Some f => if float_is_zero f then f3_5 else f
               | None => f3_5
               end in
  let p_night := r_price_usd r in
  let total := match p_night with
               | Some p => Some (fmul p (float_of_Z nights))
               | None => None
               end in
  let bd_url := r_url r in
  let url_final := match bd_url with
                   | Some u => if String.eqb u "" then fallback_url name city else u
                   | None => fallback_url name city
                   end in
  {| h_name := name;
     h_area := area;
     h_stars := stars;
     h_price_per_night_usd := p_night;
     h_total_usd := match total with
                    | Some t => if float_is_zero t then None else Some (round2 t)
                    | None => None
                    end;
     h_url := url_final |}.

(** The arguments of the command line. *)
Record Args := {
  arg_city : string;
  arg_checkin : string;
  arg_checkout : string;
  arg_adults : Z;
  arg_limit : Z;
}.

Section Search.
Context (rt : Runtime).
Variable post : Request -> result Response.
Variable env : Env.

(** The handler of the [try] logs the exception and returns the empty
    list; the log is not part of the model. *)
Definition search_hotels_google (city_or_iata checkin checkout : string) (adults : Z)
    (currency country lang : string) (limit : Z) : result (list Hotel) :=
  let city := resolve_city city_or_iata in
  let url := hotels_url city checkin checkout adults currency country lang in
  match (res ← serp_direct post env url; resp_json res) with
  | Raise e => Ok []
  | Ok data =>
      let rows := _extract_hotels_from_serp_json rt data limit in
      nights ← _nights checkin checkout;
      mret (map (assemble city nights) rows)
  end.

Definition json_of_float_opt (v : option float) : json :=
  match v with Some f => JFloat f | None => JNull end.

Definition json_of_hotel (h : Hotel) : json :=
  JObj [ ("name", JStr (h_name h)); ("area", h_area h); ("stars", JFloat (h_stars h));
         ("price_per_night_usd", json_of_float_opt (h_price_per_night_usd h));
         ("total_usd", json_of_float_opt (h_total_usd h));
         ("url", JStr (h_url h)) ].

(** The object handed to [print(json.dumps(...))] by the [__main__] block. *)
Definition main (args : Args) : result json :=
  try_except_BrightDataError
    (hotels ← search_hotels_google (arg_city args) (arg_checkin args) (arg_checkout args)
                (arg_adults args) "USD" "us" "en" (arg_limit args);
     mret (JObj [ ("city", JStr (arg_city args)); ("checkin", JStr (arg_checkin args));
                  ("checkout", JStr (arg_checkout args)); ("adults", JInt (arg_adults args));
                  ("results", JArr (map json_of_hotel hotels)) ]))
    (fun msg => Ok (JObj [ ("error", JStr msg) ])).
End Search.

End hotel_backend.

(** * google_places_tool/google_places_client.py *)

Module google_places_client.

(** [v.get(k)] on a value that need not be a dict: anything else has no
    [get] attribute. *)
Definition attr_get (v : json) (k : string) : result json :=
  match v with
  | JObj d => Ok (dict_get d k)
  | _ => Raise AttributeError
  end.

Definition normalize_place_summary (place : dict) : result dict :=
  location ← attr_get (dict_get_default place "geometry" (JObj [])) "location";
  mret [ ("place_id", dict_get place "place_id");
         ("name", dict_get place "name");
         ("rating", dict_get place "rating");
         ("types", dict_get place "types");
         ("location", location);
         ("address", py_or (dict_get place "formatted_address") (dict_get place "vicinity")) ].

End google_places_client.

(** ** The three requests of the Places client *)

Module google_places_requests.

(** What the client raises: [RuntimeError] for a missing key, the errors of
    [requests] for the transport, the status and the body. *)
Inductive error : Type :=
| RuntimeError (msg : string)
| HTTPError (status : Z)
| RequestException
| JSONError.

Inductive outcome (A : Type) : Type :=
| Done (a : A)
| Fail (e : error).
Arguments Done {A} a.
Arguments Fail {A} e.

#[global] Instance outcome_ret : MRet outcome := fun A a => Done a.
#[global] Instance outcome_bind : MBind outcome := fun A B k m =>
  match m with
  | Done a => k a
  | Fail e => Fail e
  end.

Definition BASE : string := "https://maps.googleapis.com/maps/api/place".

Definition key_error : string :=
  "Google Maps API key not found. Set GOOGLE_MAPS_API_KEY env var or pass api_key".

(** [a or b] on optional strings *)
Definition str_or (a b : option string) : option string :=
  match a with
  | Some s => if String.eqb s "" then b else a
  | None => b
  end.

(** [_get_key(api_key)], with what [os.getenv('GOOGLE_MAPS_API_KEY')] gives *)
Definition _get_key (env_key : option string) (api_key : option string) : outcome string :=
  match str_or api_key env_key with
  | Some key => if String.eqb key "" then Fail (RuntimeError key_error) else Done key
  | None => Fail (RuntimeError key_error)
  end.

(** A response of [requests]: its status code and what [resp.json()] gives. *)
Record Reply := {
  reply_status : Z;
  reply_json : outcome json;
}.

(** [resp.raise_for_status()] of requests: 4xx and 5xx raise. *)
Definition raise_for_status (resp : Reply) : outcome unit :=
  if (400 <=? reply_status resp) && (reply_status resp <? 600)
  then Fail (HTTPError (reply_status resp))
  else Done tt.

Section Requests.
(** [requests.get(url, params=params, timeout=timeout)] *)
Variable get : string -> dict -> Z -> outcome Reply.
(** the environment variable [GOOGLE_MAPS_API_KEY] *)
Variable env_key : option string.
(** [str(x)] for a float, as an f-string formats it *)
Variable format_float : float -> string.

Definition text_search (query : string) (api_key : option string) : outcome json :=
  key ← _get_key env_key api_key;
  let url := BASE +:+ "/textsearch/json" in
  let params := [ ("query", JStr query); ("key", JStr key) ] in
  resp ← get url params 10;
  raise_for_status resp;;
  reply_json resp.

Definition nearby_search (lat lng : float) (radius : Z) (keyword : option string)
    (api_key : option string) : outcome json :=
  key ← _get_key env_key api_key;
  let url := BASE +:+ "/nearbysearch/json" in
  let params := [ ("location", JStr (format_float lat +:+ "," +:+ format_float lng));
                  ("radius", JInt radius); ("key", JStr key) ] in
  let params := match keyword with
                | Some kw => if String.eqb kw "" then params
                             else params ++ [ ("keyword", JStr kw) ]
                | None => params
                end in
  resp ← get url params 10;
  raise_for_status resp;;
  reply_json resp.

Definition place_details (place_id : string) (fields : option (list string))
    (api_key : option string) : outcome json :=
  key ← _get_key env_key api_key;
  let url := BASE +:+ "/details/json" in
  let params := [ ("place_id", JStr place_id); ("key", JStr key) ] in
  let params := match fields with
                | Some (f :: fs) => params ++ [ ("fields", JStr (join "," (f :: fs))) ]
                | _ => params
                end in
  resp ← get url params 10;
  raise_for_status resp;;
  reply_json resp.
End Requests.

End google_places_requests.

(** * Specification-side definitions *)

Module spec.
Import hotel_backend.

(** The nodes of a tree in depth-first pre-order: the node, then the nodes
    of each value of an object (each element of an array) in turn. *)
Fixpoint preorder (node : json) : list json :=
  node :: match node with
          | JObj members => flat_map (fun kv => preorder (snd kv)) members
          | JArr items => flat_map preorder items
          | _ => []
          end.

(** A key of [aliases] is a key of [node], whatever value it is bound to. *)
Definition has_key (aliases : list string) (node : dict) : Prop :=
  exists k, k ∈ aliases /\ dict_lookup k node <> None.

(** A key of [aliases] is bound in [node] to a truthy value: one that is
    not null, false, zero or empty. *)
Definition has_truthy (aliases : list string) (node : dict) : Prop :=
  exists k, k ∈ aliases /\ truthy (dict_get node k) = true.

Definition name_keys : list string := ["name"; "title"].
Definition rating_keys : list string := ["overall_rating"; "rating"; "stars"; "star_rating"].
Definition price_keys : list string := ["price_text"; "price"; "rate"; "rate_per_night"].

Definition is_candidate (node : json) : bool :=
  match node with
  | JObj members => qualifies members
  | _ => false
  end.

(** What a visit of [node] appends to [found]. *)
Definition emitted (rt : Runtime) (node : json) : list Candidate :=
  match node with
  | JObj members => if qualifies members then [candidate_of rt members] else []
  | _ => []
  end.

Definition count_candidates (data : json) : nat :=
  length (filter (fun n => is_candidate n = true) (preorder data)).

(** The candidates that survive deduplication: a candidate stays and every
    later candidate with its name is dropped. *)
Fixpoint keep_first (l : list Candidate) : list Candidate :=
  match l with
  | [] => []
  | h :: rest => h :: filter (fun h' => c_name h' <> c_name h) (keep_first rest)
  end.

(** The number of different names among the candidates. *)
Definition distinct_names (l : list Candidate) : nat :=
  size (list_to_set (map c_name l) : gset string).

(** The length at which the loop stops: the limit, and one when the limit
    is not positive. *)
Definition stop_at (limit : Z) : nat := Z.to_nat (Z.max limit 1).

(** A runtime for closed examples.  It prints integers, booleans and [None]
    and converts strings of decimal digits as CPython does, and it meets the
    keys of [URL_KEYS] in the order of the source text. *)
Fixpoint all_chars (ok : ascii -> bool) (s : string) : bool :=
  match s with
  | EmptyString => true
  | String c rest => ok c && all_chars ok rest
  end.

Definition sample_repr (v : json) : string :=
  match v with
  | JInt z => str_of_int z
  | JBool true => "True"
  | JBool false => "False"
  | JNull => "None"
  | _ => ""
  end.

Definition sample_float_of_str (s : string) : result float :=
  if negb (String.eqb s "") && all_chars is_digit s then Ok (float_of_digits s)
  else Raise ValueError.

Definition sample_runtime : Runtime :=
  {| py_repr := sample_repr;
     py_float_of_str := sample_float_of_str;
     URL_KEYS_iter := URL_KEYS |}.

(** [d1] is earlier in the calendar than [d2]. *)
Definition date_lt (d1 d2 : date) : Prop :=
  year d1 < year d2
  \/ (year d1 = year d2
      /\ (month d1 < month d2 \/ (month d1 = month d2 /\ day d1 < day d2))).

(** Inputs of the closed examples. *)
Definition cand (name price : string) : Candidate :=
  {| c_name := name; c_rating := None; c_price_text := Some price;
     c_address := JNull; c_url := None |}.

Definition hotel_node (name price : string) : json :=
  JObj [ ("name", JStr name); ("price", JStr price) ].

Definition sample_serp : json :=
  JObj [ ("organic", JArr [ hotel_node "A" "$100"; hotel_node "B" "$80";
                            hotel_node "A" "$120" ]) ].

Definition five_candidates : list Candidate :=
  [ cand "A" "$1"; cand "B" "$2"; cand "C" "$3"; cand "D" "$4"; cand "E" "$5" ].

(** The characters of [s] that satisfy [ok], in order. *)
Fixpoint keep_chars (ok : ascii -> bool) (s : string) : string :=
  match s with
  | EmptyString => EmptyString
  | String c rest => if ok c then String c (keep_chars ok rest) else keep_chars ok rest
  end.

Definition not_digit (c : ascii) : bool := negb (is_digit c).

(** The number a string of decimal digits denotes: each digit weighs ten
    to the number of digits after it. *)
Fixpoint decimal_value (s : string) : Z :=
  match s with
  | EmptyString => 0
  | String c rest => digit_value c * 10 ^ Z.of_nat (String.length rest) + decimal_value rest
  end.

(** A place object is well-shaped when its [geometry] member, if it has
    one, is an object. *)
Definition geometry_is_object (place : dict) : Prop :=
  match dict_lookup "geometry" place with
  | Some (JObj _) | None => True
  | Some _ => False
  end.

(** What the summary holds under [location]. *)
Definition place_location (place : dict) : json :=
  match dict_lookup "geometry" place with
  | Some (JObj g) => dict_get g "location"
  | _ => JNull
  end.

Definition summary_fields : list string :=
  ["place_id"; "name"; "rating"; "types"; "location"; "address"].

(** A gateway that answers every request with status 200 and [data]. *)
Definition respond (data : json) (_ : Request) : result Response :=
  Ok {| status_code := 200; resp_json := Ok data |}.

Definition sample_env : Env :=
  {| BRIGHT_API_KEY := Some "key"; BRIGHT_SERP_ZONE := Some "serp_api1" |}.

Definition no_credentials : Env :=
  {| BRIGHT_API_KEY := None; BRIGHT_SERP_ZONE := None |}.

Definition url_ok (u : string) : Prop := startswith "http" u = true /\ u <> "".

(** An extracted URL, when there is one, starts with "http". *)
Definition picked_ok (u : option string) : Prop :=
  match u with
  | Some v => startswith "http" v = true
  | None => True
  end.

(** The responses of the examples for the record assembler. *)
Definition free_room : json :=
  JArr [ JObj [ ("name", JStr "Inn"); ("price", JStr "$0") ] ].

Definition zero_rating : json :=
  JArr [ JObj [ ("name", JStr "Inn"); ("rating", JStr "0"); ("price", JStr "$80") ] ].

Definition linked_room : json :=
  JArr [ JObj [ ("name", JStr "Inn"); ("price", JStr "$100");
                ("link", JStr "https://inn.example/book") ];
         JObj [ ("name", JStr "Lodge"); ("rating", JFloat (float_of_Z 4));
                ("url", JStr "ftp://lodge.example") ] ].

Definition sample_args : Args :=
  {| arg_city := "MIA"; arg_checkin := "2025-12-05"; arg_checkout := "2025-12-08";
     arg_adults := 2; arg_limit := 8 |}.

Definition address_keys : list string := ["address"; "neighborhood"; "vicinity"; "location"].

(** A JSON value that [_pick_url] accepts: a string starting with "http". *)
Definition is_http (v : json) : bool :=
  match v with
  | JStr s => startswith "http" s
  | _ => false
  end.

(** What holds of every record [search_hotels_google] returns. *)
Definition record_ok (h : Hotel) : Prop :=
  h_name h <> ""
  /\ truthy (h_area h) = true
  /\ float_is_zero (h_stars h) = false
  /\ (h_price_per_night_usd h = None -> h_total_usd h = None).

Definition creds_present (env : Env) (key zone : string) : Prop :=
  BRIGHT_API_KEY env = Some key /\ BRIGHT_SERP_ZONE env = Some zone
  /\ key <> "" /\ zone <> "".

(** Transports of the closed examples. *)
Definition failing_post (_ : Request) : result Response := Raise TransportError.

Definition busy_post (_ : Request) : result Response :=
  Ok {| status_code := 503; resp_json := Ok JNull |}.

Definition html_post (_ : Request) : result Response :=
  Ok {| status_code := 200; resp_json := Raise JSONDecodeError |}.

(** A float that is zero, a positive finite number or plus infinity. *)
Definition nonnegative_float (f : float) : Prop :=
  match f with
  | S754_zero false | S754_finite false _ _ | S754_infinity false => True
  | _ => False
  end.

(** The characters [quote_plus] can produce. *)
Definition url_safe (c : ascii) : bool :=
  is_unreserved c || Ascii.eqb c "+" || Ascii.eqb c "%".

(** The value of a hexadecimal digit written with capitals. *)
Definition hex_value (c : ascii) : N :=
  if is_digit c then (N_of_ascii c - 48)%N else (N_of_ascii c - 55)%N.

(** The inverse of [quote_plus], used to show that it loses nothing. *)
Fixpoint unquote_plus (s : string) : string :=
  match s with
  | EmptyString => EmptyString
  | String "%" (String a (String b rest)) =>
      String (ascii_of_N (16 * hex_value a + hex_value b)) (unquote_plus rest)
  | String "+" rest => String " " (unquote_plus rest)
  | String c rest => String c (unquote_plus rest)
  end.

(** The text "YYYY-MM-DD" of a date, with leading zeros. *)
Definition digit_char (n : Z) : ascii := ascii_of_N (48 + Z.to_N n).

Definition pad2 (n : Z) : string :=
  String (digit_char (n / 10)) (String (digit_char (n mod 10)) EmptyString).

Definition pad4 (n : Z) : string :=
  String (digit_char (n / 1000))
    (String (digit_char (n / 100 mod 10))
       (String (digit_char (n / 10 mod 10)) (String (digit_char (n mod 10)) EmptyString))).

Definition isoformat (d : date) : string :=
  pad4 (year d) +:+ "-" +:+ pad2 (month d) +:+ "-" +:+ pad2 (day d).

(** An optional string that [not] takes for missing: unset or empty. *)
Definition unset (v : option string) : Prop := v = None \/ v = Some "".

(** What each request of the Places client does with the answer of [get]. *)
Definition places_answer (r : google_places_requests.outcome google_places_requests.Reply)
    : google_places_requests.outcome json :=
  match r with
  | google_places_requests.Fail e => google_places_requests.Fail e
  | google_places_requests.Done reply =>
      if (400 <=? google_places_requests.reply_status reply)
         && (google_places_requests.reply_status reply <? 600)
      then google_places_requests.Fail
             (google_places_requests.HTTPError (google_places_requests.reply_status reply))
      else google_places_requests.reply_json reply
  end.

(** Transports and a float printer for the closed examples of the Places
    client. *)
Definition no_get (_ : string) (_ : dict) (_ : Z) :
    google_places_requests.outcome google_places_requests.Reply :=
  google_places_requests.Fail google_places_requests.RequestException.

Definition redirect_get (_ : string) (_ : dict) (_ : Z) :
    google_places_requests.outcome google_places_requests.Reply :=
  google_places_requests.Done
    {| google_places_requests.reply_status := 302;
       google_places_requests.reply_json := google_places_requests.Done (JStr "moved") |}.

Definition sample_format_float (_ : float) : string := "0.0".

(** A node with two links that agree and a rating under two aliases. *)
Definition two_links : dict :=
  [ ("name", JStr "Inn"); ("rating", JInt 0); ("stars", JInt 4);
    ("link", JStr "https://inn.example"); ("url", JStr "https://inn.example");
    ("maps_url", JStr "geo:25.7,-80.2") ].

(** A node that has a name and a rating key, the rating being zero. *)
Definition zero_rated : dict := [ ("name", JStr "Inn"); ("rating", JInt 0) ].

(** A place whose formatted address is there and empty. *)
Definition empty_address : dict :=
  [ ("place_id", JStr "p1"); ("formatted_address", JStr ""); ("vicinity", JStr "Pine St") ].

End spec.

(** * Properties *)

(** ** Induction over JSON trees *)

Lemma json_ind (P : json -> Prop) :
  P JNull ->
  (forall b, P (JBool b)) ->
  (forall z, P (JInt z)) ->
  (forall f, P (JFloat f)) ->
  (forall s, P (JStr s)) ->
  (forall items, Forall P items -> P (JArr items)) ->
  (forall members, Forall (fun kv => P (snd kv)) members -> P (JObj members)) ->
  forall v, P v.
Proof.
  intros Hnull Hbool Hint Hfloat Hstr Harr Hobj.
  fix IH 1. intros [ | b | z | f | s | items | members ].
  - exact Hnull.
  - apply Hbool.
  - apply Hint.
  - apply Hfloat.
  - apply Hstr.
  - apply Harr. induction items as [ | v items IHitems ]; constructor.
    + apply IH.
    + exact IHitems.
  - apply Hobj. induction members as [ | [k v] members IHmembers ]; constructor.
    + apply IH.
    + exact IHmembers.
Qed.

(** ** Sanity checks of the embedding *)

Example startswith_http : startswith "http" "https://x" = true.
Proof. reflexivity. Qed.

Example float_of_Z_123 : float_of_Z 123 = S754_finite false 8655355533852672 (-46).
Proof. vm_compute. reflexivity. Qed.

Example round2_example :
  round2 (fdiv (float_of_Z 2675) (float_of_Z 1000)) = fdiv (float_of_Z 267) (float_of_Z 100).
Proof. vm_compute. reflexivity. Qed.

Example upper_mixed : upper "mIa-9" = "MIA-9".
Proof. reflexivity. Qed.

Example str_of_int_2 : str_of_int 2 = "2".
Proof. vm_compute. reflexivity. Qed.

Example quote_plus_example : quote_plus "Ritz & Co Miami/FL" = "Ritz+%26+Co+Miami%2FFL".
Proof. reflexivity. Qed.

Example strptime_ok : strptime_Ymd "2025-12-05" = Ok (mk_date 2025 12 5).
Proof. reflexivity. Qed.

Example strptime_short : strptime_Ymd "2025-1-5" = Ok (mk_date 2025 1 5).
Proof. reflexivity. Qed.

Example strptime_feb30 : strptime_Ymd "2025-02-30" = Raise ValueError.
Proof. reflexivity. Qed.

Example strptime_trailing : strptime_Ymd "2025-12-051" = Raise ValueError.
Proof. reflexivity. Qed.

Example toordinal_example : toordinal (mk_date 2025 12 5) = 739590.
Proof. reflexivity. Qed.

Example nights_3 : hotel_backend._nights "2025-12-05" "2025-12-08" = Ok 3.
Proof. reflexivity. Qed.

(** ** The tree walk *)

Section WalkProperties.
Import hotel_backend spec.
Context (rt : Runtime).

Lemma visit_emitted (members : dict) (found : list Candidate) :
  visit rt members found = found ++ emitted rt (JObj members).
Proof.
  unfold visit, emitted. destruct (qualifies members); [reflexivity | ].
  symmetry. apply app_nil_r.
Qed.

(** Walking a sequence of subtrees appends what each subtree emits, in
    the order of the sequence. *)
Lemma fold_walk {A} (sub : A -> json) (xs : list A) :
  Forall (fun x => forall found,
            walk rt (sub x) found = found ++ flat_map (emitted rt) (preorder (sub x))) xs ->
  forall found,
    fold_left (fun acc x => walk rt (sub x) acc) xs found
    = found ++ flat_map (emitted rt) (flat_map (fun x => preorder (sub x)) xs).
Proof.
  induction 1 as [ | x xs Hx _ IH ]; intros found; simpl.
  - symmetry. apply app_nil_r.
  - rewrite IH, Hx, flat_map_app, app_assoc. reflexivity.
Qed.

Lemma walk_preorder (data : json) (found : list Candidate) :
  walk rt data found = found ++ flat_map (emitted rt) (preorder data).
Proof.
  revert found. induction data as [ | b | z | f | s | items IH | members IH ]
    using json_ind; intros found; simpl; try (symmetry; apply app_nil_r).
  - change (fold_left (fun acc v => walk rt v acc) items found)
      with (fold_left (fun acc v => walk rt (id v) acc) items found).
    rewrite (fold_walk id items IH found). reflexivity.
  - rewrite (fold_walk snd members IH), visit_emitted. simpl.
    rewrite <- app_assoc. reflexivity.
Qed.

Lemma length_emitted (nodes : list json) :
  length (flat_map (emitted rt) nodes)
  = length (filter (fun n => is_candidate n = true) nodes).
Proof.
  induction nodes as [ | n nodes IH ]; [reflexivity | ].
  simpl. rewrite length_app, IH, filter_cons.
  destruct n as [ | b | z | f | s | items | members ]; simpl;
    try (destruct (decide (false = true)); [discriminate | reflexivity]).
  destruct (qualifies members); simpl.
  - destruct (decide (true = true)); [reflexivity | congruence].
  - destruct (decide (false = true)); [discriminate | reflexivity].
Qed.

Lemma truthy_py_or (a b : json) : truthy (py_or a b) = truthy a || truthy b.
Proof. unfold py_or. destruct (truthy a) eqn:Ha; simpl; [exact Ha | reflexivity]. Qed.

Lemma qualifies_has_truthy (node : dict) :
  qualifies node = true
  <-> has_truthy name_keys node
      /\ (has_truthy rating_keys node \/ has_truthy price_keys node).
Proof.
  unfold qualifies, node_name, node_rating, node_price_text, has_truthy,
    name_keys, rating_keys, price_keys.
  rewrite !truthy_py_or, andb_true_iff, !orb_true_iff.
  split.
  - intros [Hn Hrp]. split.
    + destruct Hn as [H | H]; eexists; (split; [ | exact H]); repeat constructor.
    + destruct Hrp as [[H | [H | [H | H]]] | [H | [H | [H | H]]]];
        [left | left | left | left | right | right | right | right];
        eexists; (split; [ | exact H]); repeat constructor.
  - intros [(k & Hk & Hn) Hrp]. split.
    + apply elem_of_cons in Hk as [-> | Hk]; [left; exact Hn | ].
      apply elem_of_cons in Hk as [-> | Hk]; [right; exact Hn | ].
      apply elem_of_nil in Hk; contradiction.
    + destruct Hrp as [(k' & Hk' & H) | (k' & Hk' & H)]; [left | right];
        repeat (apply elem_of_cons in Hk' as [-> | Hk']; [tauto | ]);
        apply elem_of_nil in Hk'; contradiction.
Qed.
End WalkProperties.

(** ** Deduplication and truncation *)

Section DedupProperties.
Import hotel_backend spec.

Lemma filter_unseen_skip (seen : gset string) (h : Candidate) (l : list Candidate) :
  c_name h ∈ seen ->
  filter (fun x => c_name x ∉ seen) (filter (fun h' => c_name h' <> c_name h) l)
  = filter (fun x => c_name x ∉ seen) l.
Proof.
  intros Hin. rewrite list_filter_filter. apply list_filter_iff.
  intros x. split; [tauto | ]. intros Hx. split; [exact Hx | ]. congruence.
Qed.

Lemma filter_unseen_add (seen : gset string) (h : Candidate) (l : list Candidate) :
  filter (fun x => c_name x ∉ seen) (filter (fun h' => c_name h' <> c_name h) l)
  = filter (fun x => c_name x ∉ seen ∪ {[ c_name h ]}) l.
Proof.
  rewrite list_filter_filter. apply list_filter_iff.
  intros x. rewrite not_elem_of_union, not_elem_of_singleton. tauto.
Qed.

(** The loop, started with [out] shorter than the stopping length, appends
    the surviving candidates whose name is not in [seen], up to that length. *)
Lemma dedup_loop_spec (limit : Z) (found : list Candidate) :
  forall (out : list Row) (seen : gset string),
    (length out < stop_at limit)%nat ->
    dedup_loop limit found out seen
    = out ++ map row_of
               (take (stop_at limit - length out)%nat
                  (filter (fun h => c_name h ∉ seen) (keep_first found))).
Proof.
  unfold stop_at.
  induction found as [ | h rest IH ]; intros out seen Hlen; simpl.
  - rewrite filter_nil, take_nil. simpl. symmetry. apply app_nil_r.
  - destruct (decide (c_name h ∈ seen)) as [Hin | Hnot].
    + rewrite filter_cons_False by tauto.
      rewrite filter_unseen_skip by exact Hin. apply IH, Hlen.
    + rewrite filter_cons_True by exact Hnot.
      rewrite filter_unseen_add, length_app. simpl.
      destruct (Z.geb_spec (Z.of_nat (length out + 1)) limit) as [Hge | Hlt].
      * replace (Z.to_nat (Z.max limit 1) - length out)%nat with 1%nat by lia.
        reflexivity.
      * rewrite IH by (rewrite length_app; simpl; lia).
        rewrite length_app. simpl.
        replace (Z.to_nat (Z.max limit 1) - length out)%nat
          with (S (Z.to_nat (Z.max limit 1) - (length out + 1)))%nat by lia.
        simpl. rewrite <- app_assoc. reflexivity.
Qed.

Lemma filter_all {A} (P : A -> Prop) `{forall x, Decision (P x)} (l : list A) :
  (forall x, P x) -> filter P l = l.
Proof.
  intros HP. induction l as [ | h l IH ]; [reflexivity | ].
  rewrite filter_cons_True by apply HP. rewrite IH. reflexivity.
Qed.

Lemma dedup_loop_keep_first (limit : Z) (found : list Candidate) :
  dedup_loop limit found [] ∅
  = map row_of (take (stop_at limit) (keep_first found)).
Proof.
  rewrite dedup_loop_spec by (unfold stop_at; simpl; lia).
  cbn [app length]. rewrite Nat.sub_0_r.
  rewrite filter_all by (intros x; apply not_elem_of_empty). reflexivity.
Qed.

Lemma keep_first_NoDup (l : list Candidate) :
  NoDup (map c_name l) -> keep_first l = l.
Proof.
  induction l as [ | h rest IH ]; [reflexivity | ].
  simpl. intros Hnd. apply NoDup_cons in Hnd as [Hh Hrest].
  rewrite IH by exact Hrest. f_equal.
  clear IH Hrest. induction rest as [ | x rest IH ]; [reflexivity | ].
  simpl in Hh. apply not_elem_of_cons in Hh as [Hne Hh].
  rewrite filter_cons_True by congruence. rewrite IH by exact Hh. reflexivity.
Qed.

(** The survivors counted: one per name not yet seen. *)
Lemma length_keep_first_unseen (l : list Candidate) :
  forall seen : gset string,
    length (filter (fun h => c_name h ∉ seen) (keep_first l))
    = size ((list_to_set (map c_name l) : gset string) ∖ seen).
Proof.
  induction l as [ | h rest IH ]; intros seen; simpl.
  - rewrite empty_difference_L, size_empty. reflexivity.
  - destruct (decide (c_name h ∈ seen)) as [Hin | Hnot].
    + rewrite filter_cons_False by tauto.
      rewrite filter_unseen_skip by exact Hin. rewrite IH.
      f_equal. apply set_eq. intros x.
      rewrite !elem_of_difference, elem_of_union, elem_of_singleton.
      split; [tauto | ]. intros [Hx Hs]. split; [ | exact Hs].
      destruct Hx as [-> | Hx]; [contradiction | exact Hx].
    + rewrite filter_cons_True by exact Hnot.
      rewrite filter_unseen_add. simpl. rewrite IH.
      replace (({[c_name h]} ∪ list_to_set (map c_name rest)) ∖ seen : gset string)
        with ({[c_name h]} ∪ (list_to_set (map c_name rest) ∖ (seen ∪ {[c_name h]})) : gset string).
      * rewrite (@size_union string (gset string) _ _ _ _ _ _ _ _ gset_fin_set),
          size_singleton; [reflexivity | ].
        apply disjoint_singleton_l. rewrite elem_of_difference, elem_of_union,
          elem_of_singleton. tauto.
      * apply set_eq. intros x. rewrite !elem_of_union, !elem_of_difference,
          !elem_of_union, !elem_of_singleton.
        destruct (decide (x = c_name h)) as [-> | Hne]; tauto.
Qed.

Lemma length_keep_first (l : list Candidate) :
  length (keep_first l) = distinct_names l.
Proof.
  unfold distinct_names.
  pose proof (length_keep_first_unseen l ∅) as Hlen.
  rewrite filter_all in Hlen by (intros x; apply not_elem_of_empty).
  rewrite difference_empty_L in Hlen. exact Hlen.
Qed.
End DedupProperties.

Section ExtractorClaims.
Import hotel_backend spec.
Context (rt : Runtime).

Lemma keep_first_sublist (l : list Candidate) : sublist (keep_first l) l.
Proof.
  induction l as [ | h rest IH ]; simpl; [constructor | ].
  apply sublist_skip. transitivity (keep_first rest); [apply sublist_filter | exact IH].
Qed.

Lemma keep_first_names_NoDup (l : list Candidate) : NoDup (map c_name (keep_first l)).
Proof.
  induction l as [ | h rest IH ]; simpl; [constructor | ].
  apply NoDup_cons. split.
  - intros Hin. apply list_elem_of_fmap in Hin as (x & Hname & Hx).
    apply list_elem_of_filter in Hx as [Hne _]. congruence.
  - apply (sublist_NoDup _ (map c_name (keep_first rest))); [exact IH | ].
    apply (fmap_sublist c_name), sublist_filter.
Qed.

Lemma has_truthy_has_key (aliases : list string) (node : dict) :
  has_truthy aliases node -> has_key aliases node.
Proof.
  intros (k & Hk & Ht). exists k. split; [exact Hk | ].
  intros Hnone. unfold dict_get, dict_get_default in Ht. rewrite Hnone in Ht. discriminate Ht.
Qed.

(** C2, amended: for every JSON value the walk visits the nodes in
    depth-first pre-order (an object first, then its values in turn; the
    elements of an array in turn; scalars are leaves) and appends to [found]
    exactly one candidate for each object whose name is bound to a truthy
    value and whose rating or price text is bound to a truthy value (a key
    bound to null, false, zero or an empty value counts as absent), children
    of a qualifying object included; so a tree with N qualifying objects
    yields N candidates before dedup. *)
Theorem C2_walk_emits_one_candidate_per_qualifying_object (data : json) :
  (forall found, walk rt data found = found ++ flat_map (emitted rt) (preorder data))
  /\ (forall node, emitted rt node <> [] <-> is_candidate node = true)
  /\ (forall node, is_candidate node = true <->
        exists members, node = JObj members
          /\ has_truthy name_keys members
          /\ (has_truthy rating_keys members \/ has_truthy price_keys members))
  /\ (forall aliases members, has_truthy aliases members -> has_key aliases members)
  /\ length (walk rt data []) = count_candidates data.
Proof.
  split; [intros found; apply walk_preorder | ].
  split; [ | split; [ | split]].
  - intros [ | b | z | f | s | items | members ]; simpl;
      try (split; [congruence | discriminate]).
    destruct (qualifies members); split; congruence.
  - intros node. split.
    + destruct node as [ | b | z | f | s | items | members ]; simpl; try discriminate.
      intros Hq. exists members. split; [reflexivity | ].
      apply qualifies_has_truthy, Hq.
    + intros (members & -> & Hp). simpl. apply qualifies_has_truthy, Hp.
  - apply has_truthy_has_key.
  - rewrite walk_preorder. simpl. apply length_emitted.
Qed.

(** C3: the candidates are gone through in traversal order; the first
    candidate of each name (compared exactly) is kept and every later one
    with that name is dropped, the order is kept, and the loop stops once
    the output has reached the limit.  With limit 2 and five candidates of
    different names the output is the first two; candidates named A, B, A
    give A, B. *)
Theorem C3_dedup_keeps_first_occurrence_and_truncates (data : json) (limit : Z) :
  _extract_hotels_from_serp_json rt data limit
    = map row_of (take (stop_at limit) (keep_first (walk rt data [])))
  /\ (forall found,
        dedup_loop limit found [] ∅ = map row_of (take (stop_at limit) (keep_first found))
        /\ sublist (keep_first found) found
        /\ NoDup (map c_name (keep_first found)))
  /\ (1 <= limit -> Z.of_nat (length (_extract_hotels_from_serp_json rt data limit)) <= limit)
  /\ (forall found, length found = 5%nat -> NoDup (map c_name found) ->
        dedup_loop 2 found [] ∅ = map row_of (take 2 found))
  /\ (forall a b a' limit', 2 <= limit' -> c_name a' = c_name a -> c_name b <> c_name a ->
        dedup_loop limit' [a; b; a'] [] ∅ = [row_of a; row_of b]).
Proof.
  split; [apply dedup_loop_keep_first | ].
  split; [intros found; split; [apply dedup_loop_keep_first | ];
          split; [apply keep_first_sublist | apply keep_first_names_NoDup] | ].
  split; [ | split].
  - intros Hlimit. unfold _extract_hotels_from_serp_json.
    rewrite dedup_loop_keep_first, length_map, length_take. unfold stop_at. lia.
  - intros found Hlen Hnd. rewrite dedup_loop_keep_first, keep_first_NoDup by exact Hnd.
    reflexivity.
  - intros a b a' limit' Hlimit Ha Hb. rewrite dedup_loop_keep_first. simpl.
    rewrite (filter_cons_True _ a') by congruence.
    rewrite filter_nil.
    rewrite (filter_cons_True _ b) by exact Hb.
    rewrite (filter_cons_False _ a') by (intros Hne; apply Hne; exact Ha).
    rewrite filter_nil.
    unfold stop_at. destruct (Z.to_nat (Z.max limit' 1)) as [ | [ | n ]] eqn:Hn; [lia | lia | ].
    destruct n; reflexivity.
Qed.

(** C9: when the limit is zero or negative and the input holds at least
    one qualifying object, the extractor returns exactly one row, since the
    length is tested only after a row has been appended; the length of the
    output is the smaller of the number of different names and
    max(limit, 1). *)
Theorem C9_nonpositive_limit_still_returns_one_row (data : json) (limit : Z) :
  (limit <= 0 -> (1 <= count_candidates data)%nat ->
     length (_extract_hotels_from_serp_json rt data limit) = 1%nat)
  /\ length (_extract_hotels_from_serp_json rt data limit)
     = Nat.min (distinct_names (walk rt data [])) (Z.to_nat (Z.max limit 1)).
Proof.
  assert (Hlen : length (_extract_hotels_from_serp_json rt data limit)
                 = Nat.min (distinct_names (walk rt data [])) (Z.to_nat (Z.max limit 1))).
  { unfold _extract_hotels_from_serp_json.
    rewrite dedup_loop_keep_first, length_map, length_take, length_keep_first.
    unfold stop_at. lia. }
  split; [ | exact Hlen].
  intros Hlimit Hcount. rewrite Hlen.
  unfold count_candidates in Hcount. rewrite <- (length_emitted rt) in Hcount.
  rewrite <- length_keep_first.
  pose proof (walk_preorder rt data []) as Hwalk. simpl in Hwalk. rewrite <- Hwalk in Hcount.
  replace (Z.to_nat (Z.max limit 1)) with 1%nat by lia.
  destruct (walk rt data []) as [ | h rest ]; cbn [keep_first length] in *; lia.
Qed.
End ExtractorClaims.

(** An object whose name key and rating key are both there, the rating
    being zero, is not a candidate: the walk emits nothing for it. *)
Lemma C2_counterexample :
  spec.has_key spec.name_keys spec.zero_rated
  /\ spec.has_key spec.rating_keys spec.zero_rated
  /\ length (hotel_backend.walk spec.sample_runtime (JObj spec.zero_rated) []) = 0%nat
  /\ spec.count_candidates (JObj spec.zero_rated) = 0%nat.
Proof.
  split; [exists "name"; split; [repeat constructor | discriminate] | ].
  split; [exists "rating"; split; [repeat constructor | discriminate] | ].
  split; reflexivity.
Qed.

Lemma C2_witness : spec.has_key spec.rating_keys spec.two_links.
Proof.
  apply (proj1 (proj2 (proj2 (proj2 (C2_walk_emits_one_candidate_per_qualifying_object
                                       spec.sample_runtime JNull))))).
  exists "stars". split; [repeat constructor | reflexivity].
Defined.

(** Closed instances of C3 and C9. *)

Lemma C3_witness :
  Z.of_nat (length (hotel_backend._extract_hotels_from_serp_json
                      spec.sample_runtime spec.sample_serp 1)) <= 1
  /\ hotel_backend.dedup_loop 2 spec.five_candidates [] ∅
     = map hotel_backend.row_of (take 2 spec.five_candidates)
  /\ hotel_backend.dedup_loop 12 [spec.cand "A" "$100"; spec.cand "B" "$80"; spec.cand "A" "$120"] [] ∅
     = [hotel_backend.row_of (spec.cand "A" "$100"); hotel_backend.row_of (spec.cand "B" "$80")].
Proof.
  pose proof (C3_dedup_keeps_first_occurrence_and_truncates
                spec.sample_runtime spec.sample_serp 1) as (_ & _ & Hlen & Hfive & Haba).
  split; [apply Hlen; lia | ].
  split.
  - apply Hfive; [reflexivity | ].
    apply (bool_decide_unpack _). vm_compute. exact I.
  - apply Haba; [lia | reflexivity | discriminate].
Defined.

Lemma C9_witness :
  length (hotel_backend._extract_hotels_from_serp_json spec.sample_runtime spec.sample_serp 0)
  = 1%nat.
Proof.
  apply (proj1 (C9_nonpositive_limit_still_returns_one_row
                  spec.sample_runtime spec.sample_serp 0)).
  - lia.
  - vm_compute. lia.
Defined.

(** ** Night count *)

Section NightsProperties.
Import hotel_backend spec.

Lemma is_leap_cases (y : Z) :
  (_is_leap y = true /\ y mod 4 = 0 /\ (y mod 100 <> 0 \/ y mod 400 = 0))
  \/ (_is_leap y = false /\ (y mod 4 <> 0 \/ (y mod 100 = 0 /\ y mod 400 <> 0))).
Proof.
  unfold _is_leap.
  destruct (Z.eqb_spec (y mod 4) 0), (Z.eqb_spec (y mod 100) 0),
    (Z.eqb_spec (y mod 400) 0); simpl; lia.
Qed.

(** A year has 365 days, and one more when it is a leap year. *)
Lemma days_before_next_year (y : Z) :
  _days_before_year (y + 1) = _days_before_year y + 365 + (if _is_leap y then 1 else 0).
Proof.
  unfold _days_before_year.
  replace (y + 1 - 1) with y by lia.
  destruct (is_leap_cases y) as [(-> & H4 & H100) | (-> & H)];
    Z.div_mod_to_equations; lia.
Qed.

Lemma days_before_year_mono (y y' : Z) :
  y <= y' -> _days_before_year y <= _days_before_year y'.
Proof.
  unfold _days_before_year. intros Hle. Z.div_mod_to_equations. lia.
Qed.

Lemma month_cases (m : Z) :
  1 <= m <= 12 ->
  m = 1 \/ m = 2 \/ m = 3 \/ m = 4 \/ m = 5 \/ m = 6
  \/ m = 7 \/ m = 8 \/ m = 9 \/ m = 10 \/ m = 11 \/ m = 12.
Proof. lia. Qed.

Ltac each_month m H :=
  destruct (month_cases m H) as
    [-> | [-> | [-> | [-> | [-> | [-> | [-> | [-> | [-> | [-> | [-> | ->]]]]]]]]]]].

(** The days before a month and the days of that month are the days
    before the next month. *)
Lemma days_before_next_month (y m : Z) :
  1 <= m <= 11 ->
  _days_before_month y (m + 1) = _days_before_month y m + _days_in_month y m.
Proof.
  intros Hm. assert (Hm' : 1 <= m <= 12) by lia.
  unfold _days_before_month, _days_in_month.
  each_month m Hm'; try lia; destruct (_is_leap y); reflexivity.
Qed.

Lemma days_before_month_end (y m : Z) :
  1 <= m <= 12 ->
  0 <= _days_before_month y m
  /\ _days_before_month y m + _days_in_month y m <= 365 + (if _is_leap y then 1 else 0).
Proof.
  intros Hm. unfold _days_before_month, _days_in_month.
  each_month m Hm; destruct (_is_leap y); simpl; lia.
Qed.

Lemma days_before_month_mono (y m m' : Z) :
  1 <= m -> m < m' -> m' <= 12 ->
  _days_before_month y m + _days_in_month y m <= _days_before_month y m'.
Proof.
  intros H1 Hlt H12.
  assert (Hm : 1 <= m <= 12) by lia. assert (Hm' : 1 <= m' <= 12) by lia.
  unfold _days_before_month, _days_in_month.
  each_month m Hm; each_month m' Hm'; try lia; destruct (_is_leap y); simpl; lia.
Qed.
Lemma valid_date_bounds (d : date) :
  valid_date d = true ->
  1 <= year d <= 9999 /\ 1 <= month d <= 12
  /\ 1 <= day d <= _days_in_month (year d) (month d).
Proof. unfold valid_date. rewrite !andb_true_iff, !Z.leb_le. tauto. Qed.

(** [toordinal] counts days: the day after [d] has the next ordinal. *)
Lemma toordinal_next_day (d : date) :
  valid_date d = true -> toordinal (next_day d) = toordinal d + 1.
Proof.
  intros Hv. apply valid_date_bounds in Hv as (Hy & Hm & Hd).
  unfold next_day, toordinal.
  destruct (Z.ltb_spec (day d) (_days_in_month (year d) (month d))) as [Hday | Hday];
    [simpl; lia | ].
  destruct (Z.ltb_spec (month d) 12) as [Hmonth | Hmonth]; simpl.
  - rewrite days_before_next_month by lia. lia.
  - assert (Hdec : month d = 12) by lia.
    rewrite Hdec in *. rewrite days_before_next_year.
    change (_days_in_month (year d) 12) with 31 in *.
    change (_days_before_month (year d + 1) 1) with 0.
    change (_days_before_month (year d) 12)
      with (334 + (if _is_leap (year d) then 1 else 0)).
    destruct (_is_leap (year d)); lia.
Qed.

(** [toordinal] follows the calendar order. *)
Lemma toordinal_lt (d1 d2 : date) :
  valid_date d1 = true -> valid_date d2 = true ->
  date_lt d1 d2 -> toordinal d1 < toordinal d2.
Proof.
  intros Hv1 Hv2 Hlt.
  apply valid_date_bounds in Hv1 as (Hy1 & Hm1 & Hd1).
  apply valid_date_bounds in Hv2 as (Hy2 & Hm2 & Hd2).
  unfold toordinal.
  pose proof (days_before_month_end (year d1) (month d1) Hm1) as [_ Hend1].
  pose proof (days_before_month_end (year d2) (month d2) Hm2) as [Hpos2 _].
  destruct Hlt as [Hy | (Hy & [Hm | (Hm & Hd)])].
  - pose proof (days_before_next_year (year d1)) as Hnext.
    pose proof (days_before_year_mono (year d1 + 1) (year d2)) as Hmono.
    lia.
  - pose proof (days_before_month_mono (year d1) (month d1) (month d2)) as Hmono.
    rewrite <- Hy. rewrite <- Hy in Hpos2. lia.
  - rewrite <- Hy, <- Hm. lia.
Qed.

Lemma strptime_valid (s : string) (d : date) :
  strptime_Ymd s = Ok d -> valid_date d = true.
Proof.
  unfold strptime_Ymd. destruct (re_Ymd s) as [ | [d' rest] l ]; [discriminate | ].
  destruct (negb (String.eqb rest "")); [discriminate | ].
  destruct (valid_date d') eqn:Hv; [ | discriminate].
  intros [= <-]. exact Hv.
Qed.

Lemma nights_parsed (checkin checkout : string) (d0 d1 : date) :
  strptime_Ymd checkin = Ok d0 -> strptime_Ymd checkout = Ok d1 ->
  _nights checkin checkout = Ok (Z.max 1 (days_between d0 d1)).
Proof. intros H0 H1. unfold _nights, _nights_try. rewrite H0, H1. reflexivity. Qed.

Lemma nights_unparsed (checkin checkout : string) :
  (forall d, strptime_Ymd checkin <> Ok d) \/ (forall d, strptime_Ymd checkout <> Ok d) ->
  _nights checkin checkout = Ok 1.
Proof.
  unfold _nights, _nights_try. intros [H | H].
  - destruct (strptime_Ymd checkin) as [d | e]; [destruct (H d); reflexivity | reflexivity].
  - destruct (strptime_Ymd checkin) as [d0 | e]; [ | reflexivity].
    destruct (strptime_Ymd checkout) as [d | e]; [destruct (H d); reflexivity | reflexivity].
Qed.

(** C5: [_nights] gives the difference in whole days between check-out
    and check-in when both parse as calendar dates and the difference is at
    least one; it gives 1 when the two dates are the same, when check-out
    is before check-in and when either text fails to parse; it never
    raises. *)
Theorem C5_nights_is_day_difference_floored_at_one (checkin checkout : string) :
  (exists n, _nights checkin checkout = Ok n /\ 1 <= n)
  /\ (forall d0 d1,
        strptime_Ymd checkin = Ok d0 -> strptime_Ymd checkout = Ok d1 ->
        (1 <= days_between d0 d1 -> _nights checkin checkout = Ok (days_between d0 d1))
        /\ (d1 = d0 -> _nights checkin checkout = Ok 1)
        /\ (date_lt d1 d0 -> _nights checkin checkout = Ok 1))
  /\ ((forall d, strptime_Ymd checkin <> Ok d) \/ (forall d, strptime_Ymd checkout <> Ok d) ->
        _nights checkin checkout = Ok 1).
Proof.
  split; [ | split].
  - unfold _nights, _nights_try.
    destruct (strptime_Ymd checkin) as [d0 | e]; [ | exists 1; split; [reflexivity | lia]].
    destruct (strptime_Ymd checkout) as [d1 | e]; [ | exists 1; split; [reflexivity | lia]].
    exists (Z.max 1 (days_between d0 d1)). split; [reflexivity | lia].
  - intros d0 d1 H0 H1. rewrite (nights_parsed _ _ _ _ H0 H1).
    split; [ | split].
    + intros Hdiff. f_equal. lia.
    + intros ->. unfold days_between. f_equal. lia.
    + intros Hlt. f_equal.
      pose proof (toordinal_lt d1 d0 (strptime_valid _ _ H1) (strptime_valid _ _ H0) Hlt).
      unfold days_between. lia.
  - apply nights_unparsed.
Qed.
End NightsProperties.

Lemma C5_witness :
  hotel_backend._nights "2025-12-05" "2025-12-08" = Ok 3
  /\ hotel_backend._nights "2025-12-05" "2025-12-05" = Ok 1
  /\ hotel_backend._nights "2025-12-08" "2025-12-05" = Ok 1
  /\ hotel_backend._nights "2025-12-05" "next week" = Ok 1.
Proof.
  split; [ | split; [ | split]].
  - apply (proj1 (proj1 (proj2 (C5_nights_is_day_difference_floored_at_one
                                  "2025-12-05" "2025-12-08"))
                    (mk_date 2025 12 5) (mk_date 2025 12 8) eq_refl eq_refl)).
    vm_compute. discriminate.
  - apply (proj1 (proj2 (proj1 (proj2 (C5_nights_is_day_difference_floored_at_one
                                  "2025-12-05" "2025-12-05"))
                    (mk_date 2025 12 5) (mk_date 2025 12 5) eq_refl eq_refl))).
    reflexivity.
  - apply (proj2 (proj2 (proj1 (proj2 (C5_nights_is_day_difference_floored_at_one
                                  "2025-12-08" "2025-12-05"))
                    (mk_date 2025 12 8) (mk_date 2025 12 5) eq_refl eq_refl))).
    right. split; [reflexivity | ]. right. split; [reflexivity | ]. simpl. lia.
  - apply (proj2 (proj2 (C5_nights_is_day_difference_floored_at_one
                           "2025-12-05" "next week"))).
    right. intros d. discriminate.
Defined.

(** ** Price parsing *)

Section PriceProperties.
Import hotel_backend spec.

Lemma int_of_digits_from_decimal (s : string) :
  forall acc, int_of_digits_from acc s
              = acc * 10 ^ Z.of_nat (String.length s) + decimal_value s.
Proof.
  induction s as [ | c rest IH ]; intros acc; simpl.
  - lia.
  - rewrite IH. replace (Z.of_nat (S (String.length rest)))
      with (Z.of_nat (String.length rest) + 1) by lia.
    rewrite Z.pow_add_r by lia. lia.
Qed.

Lemma int_of_digits_decimal (s : string) : int_of_digits s = decimal_value s.
Proof. unfold int_of_digits. rewrite int_of_digits_from_decimal. lia. Qed.

(** On a run of digits and commas, removing the commas keeps the digits. *)
Lemma remove_commas_digits (run : string) :
  all_chars is_digit_or_comma run = true ->
  remove_commas run = keep_chars is_digit run.
Proof.
  induction run as [ | c rest IH ]; [reflexivity | ].
  simpl. intros Hrun. apply andb_true_iff in Hrun as [Hc Hrest].
  rewrite IH by exact Hrest. unfold is_digit_or_comma in Hc.
  destruct (Ascii.eqb_spec c ",") as [-> | Hne]; [reflexivity | ].
  apply orb_true_iff in Hc as [Hc | Hc]; [rewrite Hc; reflexivity | discriminate].
Qed.

Lemma take_while_run (run post : string) :
  all_chars is_digit_or_comma run = true ->
  (post = "" \/ exists c post', post = String c post' /\ is_digit_or_comma c = false) ->
  take_while is_digit_or_comma (run +:+ post) = run.
Proof.
  intros Hrun Hpost. induction run as [ | c rest IH ]; simpl.
  - destruct Hpost as [-> | (c & post' & -> & Hc)]; [reflexivity | ].
    simpl. rewrite Hc. reflexivity.
  - simpl in Hrun. apply andb_true_iff in Hrun as [Hc Hrest].
    rewrite Hc, IH by exact Hrest. reflexivity.
Qed.

Lemma re_search_price_none (s : string) :
  all_chars not_digit s = true -> re_search_price s = None.
Proof.
  induction s as [ | c rest IH ]; [reflexivity | ].
  simpl. unfold not_digit at 1. intros Hs. apply andb_true_iff in Hs as [Hc Hrest].
  apply negb_true_iff in Hc. rewrite Hc. apply IH, Hrest.
Qed.

Lemma re_search_price_first_run (pre : string) (d : ascii) (rest : string) :
  all_chars not_digit pre = true -> is_digit d = true ->
  re_search_price (pre +:+ String d rest)
  = Some (String d (take_while is_digit_or_comma rest)).
Proof.
  intros Hpre Hd. induction pre as [ | c pre IH ]; simpl.
  - rewrite Hd. reflexivity.
  - simpl in Hpre. unfold not_digit at 1 in Hpre.
    apply andb_true_iff in Hpre as [Hc Hpre]. apply negb_true_iff in Hc.
    rewrite Hc. apply IH, Hpre.
Qed.

(** C6: price parsing takes the first run made of a digit followed by
    digits and thousands separators, drops the separators and returns the
    number as a float; what follows a decimal point is not part of the run,
    so "$123.45 per night" gives 123.0; an absent or empty text and a text
    without a digit give null. *)
Theorem C6_price_is_first_digit_run (s : string) :
  _to_price_usd None = None
  /\ _to_price_usd (Some "") = None
  /\ (all_chars not_digit s = true -> _to_price_usd (Some s) = None)
  /\ (forall pre d run post,
        s = pre +:+ String d run +:+ post ->
        all_chars not_digit pre = true ->
        is_digit d = true ->
        all_chars is_digit_or_comma run = true ->
        (post = "" \/ exists c post', post = String c post' /\ is_digit_or_comma c = false) ->
        _to_price_usd (Some s)
        = Some (float_of_Z (decimal_value (keep_chars is_digit (String d run)))))
  /\ _to_price_usd (Some "$123.45 per night") = Some (float_of_Z 123)
  /\ float_of_Z 123 = S754_finite false (123 * 2 ^ 46) (-46)
  /\ _to_price_usd (Some "N/A") = None.
Proof.
  split; [reflexivity | ]. split; [reflexivity | ].
  split; [ | split; [ | split; [ | split]]]; try reflexivity.
  - intros Hs. unfold _to_price_usd.
    destruct (String.eqb s ""); [reflexivity | ].
    rewrite re_search_price_none by exact Hs. reflexivity.
  - intros pre d run post -> Hpre Hd Hrun Hpost. unfold _to_price_usd.
    destruct (String.eqb_spec (pre +:+ String d run +:+ post) "") as [Hempty | _].
    { destruct pre; discriminate. }
    change (String d run +:+ post) with (String d (run +:+ post)).
    rewrite re_search_price_first_run by assumption.
    rewrite take_while_run by assumption.
    unfold float_of_digits. rewrite int_of_digits_decimal.
    rewrite remove_commas_digits; [reflexivity | ].
    simpl. rewrite Hrun. unfold is_digit_or_comma. rewrite Hd. reflexivity.
Qed.
End PriceProperties.

Lemma C6_witness :
  hotel_backend._to_price_usd (Some "from $1,250.50 a night") = Some (float_of_Z 1250)
  /\ hotel_backend._to_price_usd (Some "call us") = None.
Proof.
  split.
  - apply (proj1 (proj2 (proj2 (proj2 (C6_price_is_first_digit_run "from $1,250.50 a night"))))
             "from $" "1"%char ",250" ".50 a night"); try reflexivity.
    right. exists "."%char, "50 a night". split; reflexivity.
  - apply (proj1 (proj2 (proj2 (C6_price_is_first_digit_run "call us")))). reflexivity.
Defined.

(** ** City resolution *)

Section CityProperties.
Import hotel_backend spec.

Lemma CITY_MAP_keys_NoDup : NoDup (CITY_MAP_items.*1).
Proof. apply (bool_decide_unpack _). vm_compute. exact I. Qed.

(** C7: the resolved city is the display name that the fixed table gives
    to the upper-cased input when that is one of its keys, and the input
    itself otherwise; "MIA" resolves to "Miami", not to "Fort Lauderdale". *)
Theorem C7_city_resolution_by_upper_cased_code (city_or_iata : string) :
  (forall display, (upper city_or_iata, display) ∈ CITY_MAP_items ->
                   resolve_city city_or_iata = display)
  /\ (upper city_or_iata ∉ CITY_MAP_items.*1 -> resolve_city city_or_iata = city_or_iata)
  /\ resolve_city "MIA" = "Miami"
  /\ resolve_city "MIA" <> "Fort Lauderdale"
  /\ resolve_city "mia" = "Miami".
Proof.
  split; [ | split; [ | split; [ | split]]].
  - intros display Hin. unfold resolve_city, CITY_MAP.
    rewrite (elem_of_list_to_map_1 _ _ _ CITY_MAP_keys_NoDup Hin). reflexivity.
  - intros Hout. unfold resolve_city, CITY_MAP.
    rewrite (not_elem_of_list_to_map_1 _ _ Hout). reflexivity.
  - vm_compute. reflexivity.
  - vm_compute. discriminate.
  - vm_compute. reflexivity.
Qed.
End CityProperties.

Lemma C7_witness :
  hotel_backend.resolve_city "fll" = "Fort Lauderdale"
  /\ hotel_backend.resolve_city "Key West" = "Key West".
Proof.
  split.
  - apply (proj1 (C7_city_resolution_by_upper_cased_code "fll")).
    apply (bool_decide_unpack _). vm_compute. exact I.
  - apply (proj1 (proj2 (C7_city_resolution_by_upper_cased_code "Key West"))).
    apply (bool_decide_unpack _). vm_compute. exact I.
Defined.

(** ** Place summaries *)

Section PlaceProperties.
Import google_places_client spec.

Lemma dict_get_missing (d : dict) (k : string) :
  dict_lookup k d = None -> dict_get d k = JNull.
Proof. unfold dict_get, dict_get_default. intros ->. reflexivity. Qed.

Lemma normalize_well_shaped (place : dict) :
  geometry_is_object place ->
  normalize_place_summary place
  = Ok [ ("place_id", dict_get place "place_id");
         ("name", dict_get place "name");
         ("rating", dict_get place "rating");
         ("types", dict_get place "types");
         ("location", place_location place);
         ("address", py_or (dict_get place "formatted_address") (dict_get place "vicinity")) ].
Proof.
  unfold geometry_is_object, normalize_place_summary, place_location, dict_get_default.
  destruct (dict_lookup "geometry" place) as [ [ | b | z | f | s | items | g ] | ];
    simpl; intros Hg; try contradiction; reflexivity.
Qed.

(** C8, amended: for every raw place object whose geometry member, when
    present, is an object, [normalize_place_summary] returns a record with
    exactly the fields place_id, name, rating, types, location (the location
    member of the geometry object) and address (formatted_address when it
    is truthy, otherwise vicinity: so vicinity when formatted_address is
    absent, null or empty), each null when its source key is missing;
    a place object with only place_id and name gives null for rating,
    types, location and address, and no error. *)
Theorem C8_place_summary_projection (place : dict) :
  (geometry_is_object place ->
   exists summary,
     normalize_place_summary place = Ok summary
     /\ map fst summary = summary_fields
     /\ (forall k, k ∈ ["place_id"; "name"; "rating"; "types"] ->
            dict_get summary k = dict_get place k)
     /\ dict_get summary "location" = place_location place
     /\ dict_get summary "address"
        = (if truthy (dict_get place "formatted_address")
           then dict_get place "formatted_address" else dict_get place "vicinity")
     /\ (forall k, k ∈ ["place_id"; "name"; "rating"; "types"] ->
            dict_lookup k place = None -> dict_get summary k = JNull)
     /\ (dict_lookup "geometry" place = None -> dict_get summary "location" = JNull)
     /\ (forall g, dict_lookup "geometry" place = Some (JObj g) ->
            dict_lookup "location" g = None -> dict_get summary "location" = JNull)
     /\ (dict_lookup "formatted_address" place = None ->
            dict_lookup "vicinity" place = None -> dict_get summary "address" = JNull))
  /\ (forall place_id name,
        normalize_place_summary [ ("place_id", place_id); ("name", name) ]
        = Ok [ ("place_id", place_id); ("name", name); ("rating", JNull);
               ("types", JNull); ("location", JNull); ("address", JNull) ]).
Proof.
  split; [ | reflexivity].
  intros Hg. eexists. split; [apply normalize_well_shaped, Hg | ].
  assert (Hfour : forall k, k ∈ ["place_id"; "name"; "rating"; "types"] ->
            dict_get [ ("place_id", dict_get place "place_id");
                       ("name", dict_get place "name");
                       ("rating", dict_get place "rating");
                       ("types", dict_get place "types");
                       ("location", place_location place);
                       ("address", py_or (dict_get place "formatted_address")
                                     (dict_get place "vicinity")) ] k
            = dict_get place k).
  { intros k Hk.
    repeat (apply elem_of_cons in Hk as [-> | Hk]; [reflexivity | ]).
    apply elem_of_nil in Hk. contradiction. }
  split; [reflexivity | ]. split; [exact Hfour | ].
  split; [reflexivity | ]. split; [reflexivity | ].
  split; [ | split; [ | split]].
  - intros k Hk Hmissing. rewrite (Hfour k Hk). apply dict_get_missing, Hmissing.
  - intros Hmissing. change (place_location place = JNull).
    unfold place_location. rewrite Hmissing. reflexivity.
  - intros g Hgeo Hmissing. change (place_location place = JNull).
    unfold place_location. rewrite Hgeo. apply dict_get_missing, Hmissing.
  - intros Hf Hv. change (py_or (dict_get place "formatted_address")
                            (dict_get place "vicinity") = JNull).
    rewrite (dict_get_missing _ _ Hf), (dict_get_missing _ _ Hv). reflexivity.
Qed.
End PlaceProperties.

(** The projection is not total on dicts: on a place whose [geometry] is
    null the lookup of [location] raises, so no summary is returned.  And
    the address is the vicinity also when [formatted_address] is there but
    empty. *)
Lemma C8_counterexample :
  google_places_client.normalize_place_summary [ ("place_id", JStr "p1"); ("geometry", JNull) ]
  = Raise AttributeError
  /\ ~ (exists summary,
         google_places_client.normalize_place_summary
           [ ("place_id", JStr "p1"); ("geometry", JNull) ] = Ok summary)
  /\ dict_lookup "formatted_address" spec.empty_address = Some (JStr "")
  /\ google_places_client.normalize_place_summary spec.empty_address
     = Ok [ ("place_id", JStr "p1"); ("name", JNull); ("rating", JNull); ("types", JNull);
            ("location", JNull); ("address", JStr "Pine St") ].
Proof.
  split; [reflexivity | ].
  split; [intros [summary H]; discriminate H | ].
  split; reflexivity.
Qed.

Lemma C8_witness :
  exists summary,
    google_places_client.normalize_place_summary
      [ ("place_id", JStr "p1"); ("name", JStr "Cafe");
        ("geometry", JObj [ ("location", JObj [ ("lat", JInt 47); ("lng", JInt (-122)) ]) ]);
        ("vicinity", JStr "Pine St") ] = Ok summary
    /\ dict_get summary "location" = JObj [ ("lat", JInt 47); ("lng", JInt (-122)) ]
    /\ dict_get summary "address" = JStr "Pine St"
    /\ dict_get summary "rating" = JNull.
Proof.
  destruct (proj1 (C8_place_summary_projection
              [ ("place_id", JStr "p1"); ("name", JStr "Cafe");
                ("geometry", JObj [ ("location", JObj [ ("lat", JInt 47); ("lng", JInt (-122)) ]) ]);
                ("vicinity", JStr "Pine St") ]) I)
    as (summary & Hsum & _ & _ & Hloc & Haddr & Hnull & _).
  exists summary. split; [exact Hsum | ].
  split; [exact Hloc | ]. split; [exact Haddr | ].
  apply Hnull; [repeat constructor | reflexivity].
Defined.

(** ** The records returned by [search_hotels_google] *)

Section SearchProperties.
Import hotel_backend spec.
Context (rt : Runtime).

Lemma pick_url_from_ok (keys : list string) (d : dict) (u : string) :
  _pick_url_from keys d = Some u ->
  startswith "http" u = true /\ exists k, k ∈ keys /\ dict_get d k = JStr u.
Proof.
  induction keys as [ | k keys IH ]; cbn [_pick_url_from]; [discriminate | ].
  intros Hpick.
  assert (Hrest : _pick_url_from keys d = Some u ->
                  startswith "http" u = true /\ exists k', k' ∈ k :: keys /\ dict_get d k' = JStr u).
  { intros H. destruct (IH H) as (Hu & k' & Hk' & Hget).
    split; [exact Hu | ]. exists k'. split; [right; exact Hk' | exact Hget]. }
  destruct (dict_get d k) as [ | b | z | f | v | items | members ] eqn:Hget; try (apply Hrest, Hpick).
  destruct (startswith "http" v) eqn:Hv; [ | apply Hrest, Hpick].
  injection Hpick as <-. split; [exact Hv | ].
  exists k. split; [left | exact Hget].
Qed.

Lemma pick_url_ok (d : dict) : picked_ok (_pick_url rt d).
Proof.
  unfold picked_ok, _pick_url.
  destruct (_pick_url_from (URL_KEYS_iter rt) d) as [u | ] eqn:Hpick; [ | exact I].
  apply (pick_url_from_ok _ _ _ Hpick).
Qed.

Lemma emitted_url_ok (node : json) :
  Forall (fun h => picked_ok (c_url h)) (emitted rt node).
Proof.
  destruct node as [ | b | z | f | s | items | members ]; simpl; try constructor.
  destruct (qualifies members); constructor; [apply pick_url_ok | constructor].
Qed.

Lemma walk_url_ok (data : json) : Forall (fun h => picked_ok (c_url h)) (walk rt data []).
Proof.
  rewrite walk_preorder. simpl.
  induction (preorder data) as [ | node nodes IH ]; simpl; [constructor | ].
  apply Forall_app. split; [apply emitted_url_ok | exact IH].
Qed.

Lemma extract_url_ok (data : json) (limit : Z) :
  Forall (fun r => picked_ok (r_url r)) (_extract_hotels_from_serp_json rt data limit).
Proof.
  unfold _extract_hotels_from_serp_json. rewrite dedup_loop_keep_first.
  apply Forall_forall. intros r Hr.
  apply list_elem_of_fmap in Hr as (h & -> & Hh).
  assert (Hin : h ∈ walk rt data []).
  { apply (elem_of_sublist (keep_first (walk rt data [])));
      [ | apply keep_first_sublist].
    apply (elem_of_sublist _ _ _ Hh), sublist_take. }
  pose proof (walk_url_ok data) as Hall.
  rewrite Forall_forall in Hall. apply (Hall h Hin).
Qed.

Lemma startswith_nonempty (u : string) : startswith "http" u = true -> u <> "".
Proof. intros H ->. discriminate H. Qed.

Lemma fallback_url_https (name city : string) :
  startswith "https" (fallback_url name city) = true.
Proof. reflexivity. Qed.

Lemma assemble_url_ok (city : string) (nights : Z) (r : Row) :
  picked_ok (r_url r) -> url_ok (h_url (assemble city nights r)).
Proof.
  unfold picked_ok, url_ok, assemble. simpl.
  destruct (r_url r) as [u | ]; [ | intros _; split; [reflexivity | discriminate]].
  intros Hu. destruct (String.eqb_spec u "") as [-> | Hne]; [discriminate Hu | ].
  split; [exact Hu | exact Hne].
Qed.

Lemma nights_total (checkin checkout : string) :
  exists n, _nights checkin checkout = Ok n.
Proof.
  unfold _nights, _nights_try.
  destruct (strptime_Ymd checkin) as [d0 | e]; [ | exists 1; reflexivity].
  destruct (strptime_Ymd checkout) as [d1 | e]; [ | exists 1; reflexivity].
  eexists. reflexivity.
Qed.

(** C10: every record returned by [search_hotels_google] has a url that is
    a non-empty string beginning with "http": an extracted URL is taken only
    from a string value that starts with "http", and otherwise the Google
    Maps fallback, which begins with "https", is used. *)
Theorem C10_record_url_begins_with_http
    (post : Request -> result Response) (env : Env)
    (city_or_iata checkin checkout : string) (adults : Z)
    (currency country lang : string) (limit : Z) :
  (exists hotels,
     search_hotels_google rt post env city_or_iata checkin checkout adults
       currency country lang limit = Ok hotels
     /\ Forall (fun h => url_ok (h_url h)) hotels)
  /\ (forall d u, _pick_url rt d = Some u ->
        startswith "http" u = true
        /\ exists k, k ∈ URL_KEYS_iter rt /\ dict_get d k = JStr u)
  /\ (forall city nights r,
        h_url (assemble city nights r)
        = match r_url r with
          | Some u => if String.eqb u "" then
                        fallback_url (h_name (assemble city nights r)) city
                      else u
          | None => fallback_url (h_name (assemble city nights r)) city
          end)
  /\ (forall name city, startswith "https" (fallback_url name city) = true).
Proof.
  split; [ | split; [ | split]].
  - unfold search_hotels_google.
    destruct (serp_direct post env _ ≫= _) as [data | e];
      [ | exists []; split; [reflexivity | constructor]].
    destruct (nights_total checkin checkout) as [n Hn]. rewrite Hn.
    eexists. split; [reflexivity | ].
    apply Forall_forall. intros h Hh.
    apply list_elem_of_fmap in Hh as (r & -> & Hr).
    apply assemble_url_ok.
    pose proof (extract_url_ok data limit) as Hall.
    rewrite Forall_forall in Hall. apply (Hall r Hr).
  - intros d u. apply pick_url_from_ok.
  - intros city nights r. reflexivity.
  - intros name city. reflexivity.
Qed.
End SearchProperties.

Lemma C10_witness :
  startswith "http" "https://inn.example/book" = true
  /\ exists k, k ∈ hotel_backend.URL_KEYS_iter spec.sample_runtime
             /\ dict_get [ ("name", JStr "Inn"); ("link", JStr "https://inn.example/book") ] k
                = JStr "https://inn.example/book".
Proof.
  apply (proj1 (proj2 (C10_record_url_begins_with_http spec.sample_runtime
                         (spec.respond spec.linked_room) spec.sample_env
                         "MIA" "2025-12-05" "2025-12-08" 2 "USD" "us" "en" 12))).
  reflexivity.
Defined.

(** ** Credentials and record assembly on concrete inputs *)

Section FailureProperties.
Import hotel_backend spec.

Lemma require_creds_missing (env : Env) :
  not_str (BRIGHT_API_KEY env) || not_str (BRIGHT_SERP_ZONE env) = true ->
  _require_creds env = Raise (BrightDataError creds_error).
Proof. unfold _require_creds. intros ->. reflexivity. Qed.

(** With a credential missing the gateway is never called, and the error
    raised by [_require_creds] is caught inside [search_hotels_google]. *)
Lemma search_without_credentials (rt : Runtime) (post : Request -> result Response)
    (env : Env) (city_or_iata checkin checkout : string) (adults : Z)
    (currency country lang : string) (limit : Z) :
  not_str (BRIGHT_API_KEY env) || not_str (BRIGHT_SERP_ZONE env) = true ->
  (forall url, serp_direct post env url = Raise (BrightDataError creds_error))
  /\ search_hotels_google rt post env city_or_iata checkin checkout adults
       currency country lang limit = Ok [].
Proof.
  intros Hmissing.
  assert (Hserp : forall url, serp_direct post env url = Raise (BrightDataError creds_error)).
  { intros url. unfold serp_direct. rewrite (require_creds_missing env Hmissing). reflexivity. }
  split; [exact Hserp | ].
  unfold search_hotels_google. rewrite Hserp. reflexivity.
Qed.

(** C1: evaluation of the code where a credential is missing.  The
    configuration error raised by [_require_creds] does not leave
    [search_hotels_google]: the function returns the empty list, as it does
    for a transport failure, and the command line prints the results object
    with no results, not an error object. *)
Theorem C1_missing_credentials_end_in_empty_results
    (rt : Runtime) (post : Request -> result Response) (other : option string)
    (args : Args) :
  let results_of env :=
    search_hotels_google rt post env (arg_city args) (arg_checkin args) (arg_checkout args)
      (arg_adults args) "USD" "us" "en" (arg_limit args) in
  let printed env := main rt post env args in
  let no_key := {| BRIGHT_API_KEY := None; BRIGHT_SERP_ZONE := other |} in
  let no_zone := {| BRIGHT_API_KEY := other; BRIGHT_SERP_ZONE := None |} in
  let empty_results :=
    JObj [ ("city", JStr (arg_city args)); ("checkin", JStr (arg_checkin args));
           ("checkout", JStr (arg_checkout args)); ("adults", JInt (arg_adults args));
           ("results", JArr []) ] in
  _require_creds no_key = Raise (BrightDataError creds_error)
  /\ _require_creds no_zone = Raise (BrightDataError creds_error)
  /\ results_of no_key = Ok [] /\ results_of no_zone = Ok []
  /\ printed no_key = Ok empty_results /\ printed no_zone = Ok empty_results
  /\ printed no_credentials = Ok empty_results
  /\ printed no_credentials <> Ok (JObj [ ("error", JStr creds_error) ]).
Proof.
  intros results_of printed no_key no_zone empty_results.
  assert (Hkey : not_str (BRIGHT_API_KEY no_key) || not_str (BRIGHT_SERP_ZONE no_key) = true)
    by reflexivity.
  assert (Hzone : not_str (BRIGHT_API_KEY no_zone) || not_str (BRIGHT_SERP_ZONE no_zone) = true)
    by (simpl; apply orb_true_r).
  assert (Hboth : not_str (BRIGHT_API_KEY no_credentials)
                  || not_str (BRIGHT_SERP_ZONE no_credentials) = true) by reflexivity.
  assert (Hprinted : forall env,
            not_str (BRIGHT_API_KEY env) || not_str (BRIGHT_SERP_ZONE env) = true ->
            printed env = Ok empty_results).
  { intros env Henv. unfold printed, main.
    rewrite (proj2 (search_without_credentials rt post env _ _ _ _ _ _ _ _ Henv)).
    reflexivity. }
  split; [apply require_creds_missing, Hkey | ].
  split; [apply require_creds_missing, Hzone | ].
  split; [apply search_without_credentials, Hkey | ].
  split; [apply search_without_credentials, Hzone | ].
  split; [apply Hprinted, Hkey | ].
  split; [apply Hprinted, Hzone | ].
  split; [apply Hprinted, Hboth | ].
  rewrite (Hprinted _ Hboth). discriminate.
Qed.

(** The total is null when there is no price and also when the product of
    price and nights is zero. *)
Lemma assemble_total_usd (city : string) (nights : Z) (r : Row) :
  h_total_usd (assemble city nights r)
  = match r_price_usd r with
    | Some p => if float_is_zero (fmul p (float_of_Z nights)) then None
                else Some (round2 (fmul p (float_of_Z nights)))
    | None => None
    end.
Proof. unfold assemble. simpl. destruct (r_price_usd r); reflexivity. Qed.

(** The stars are the default when there is no rating and also when the
    rating is zero. *)
Lemma assemble_stars (city : string) (nights : Z) (r : Row) :
  h_stars (assemble city nights r)
  = match r_rating r with
    | Some f => if float_is_zero f then f3_5 else f
    | None => f3_5
    end.
Proof. reflexivity. Qed.

(** C4: evaluation of the code on a price of zero and on a rating of
    zero.  A candidate priced "$0" for three nights gets the valid price
    0.0 per night and a null total instead of 0.0; a candidate rated "0"
    gets 3.5 stars although its rating is present and parses to 0.0. *)
Theorem C4_zero_price_has_null_total_and_zero_rating_has_default_stars :
  search_hotels_google sample_runtime (respond free_room) sample_env
    "MIA" "2025-12-05" "2025-12-08" 2 "USD" "us" "en" 12
  = Ok [ {| h_name := "Inn"; h_area := JStr "Central"; h_stars := f3_5;
            h_price_per_night_usd := Some (float_of_Z 0);
            h_total_usd := None;
            h_url := "https://www.google.com/maps/search/?api=1&query=Inn+Miami" |} ]
  /\ _to_float sample_runtime (JStr "0") = Some (float_of_Z 0)
  /\ search_hotels_google sample_runtime (respond zero_rating) sample_env
       "MIA" "2025-12-05" "2025-12-08" 2 "USD" "us" "en" 12
     = Ok [ {| h_name := "Inn"; h_area := JStr "Central"; h_stars := f3_5;
               h_price_per_night_usd := Some (float_of_Z 80);
               h_total_usd := Some (float_of_Z 240);
               h_url := "https://www.google.com/maps/search/?api=1&query=Inn+Miami" |} ].
Proof. split; [ | split]; vm_compute; reflexivity. Qed.

(** The assembler on a response that carries a deep link and a rating. *)
Example search_linked_room :
  search_hotels_google sample_runtime (respond linked_room) sample_env
    "MIA" "2025-12-05" "2025-12-08" 2 "USD" "us" "en" 12
  = Ok [ {| h_name := "Inn"; h_area := JStr "Central"; h_stars := f3_5;
            h_price_per_night_usd := Some (float_of_Z 100);
            h_total_usd := Some (float_of_Z 300);
            h_url := "https://inn.example/book" |};
         {| h_name := "Lodge"; h_area := JStr "Central"; h_stars := float_of_Z 4;
            h_price_per_night_usd := None;
            h_total_usd := None;
            h_url := "https://www.google.com/maps/search/?api=1&query=Lodge+Miami" |} ].
Proof. vm_compute. reflexivity. Qed.
End FailureProperties.

(** * Further properties of the extractor *)

Section ExtractorMore.
Import hotel_backend spec.
Context (rt : Runtime).

Lemma pick_url_from_none (keys : list string) (d : dict) :
  _pick_url_from keys d = None <-> forall k, k ∈ keys -> is_http (dict_get d k) = false.
Proof.
  induction keys as [ | k keys IH ]; cbn [_pick_url_from].
  - split; [ | reflexivity]. intros _ k Hk. apply elem_of_nil in Hk. contradiction.
  - assert (Hstep : is_http (dict_get d k) = false ->
              (_pick_url_from keys d = None
               <-> forall k', k' ∈ k :: keys -> is_http (dict_get d k') = false)).
    { intros Hk. rewrite IH. split.
      - intros H k' Hk'. apply elem_of_cons in Hk' as [-> | Hk']; [exact Hk | apply H, Hk'].
      - intros H k' Hk'. apply H. right. exact Hk'. }
    destruct (dict_get d k) as [ | b | z | f | v | items | members ] eqn:Hget;
      try (apply Hstep; reflexivity).
    destruct (startswith "http" v) eqn:Hv; [ | apply Hstep; exact Hv].
    split; [discriminate | ]. intros H.
    specialize (H k (list_elem_of_here _ _)). rewrite Hget in H.
    cbn [is_http] in H. congruence.
Qed.

(** X1: [_pick_url] returns nothing exactly when no key it goes through is
    bound to a string starting with "http"; what it returns is such a value
    of one of those keys; and when all such values of a node agree, the
    result is the same for every order in which the keys are met. *)
Theorem pick_url_complete_and_order_independent (d : dict) :
  (forall keys, _pick_url_from keys d = None
                <-> forall k, k ∈ keys -> is_http (dict_get d k) = false)
  /\ (forall keys u, _pick_url_from keys d = Some u ->
         exists k, k ∈ keys /\ dict_get d k = JStr u /\ is_http (JStr u) = true)
  /\ (forall keys1 keys2,
         keys1 ≡ₚ keys2 ->
         (forall k k', k ∈ keys1 -> k' ∈ keys1 ->
            is_http (dict_get d k) = true -> is_http (dict_get d k') = true ->
            dict_get d k = dict_get d k') ->
         _pick_url_from keys1 d = _pick_url_from keys2 d)
  /\ (URL_KEYS_iter rt ≡ₚ URL_KEYS ->
       (forall k k', k ∈ URL_KEYS -> k' ∈ URL_KEYS ->
          is_http (dict_get d k) = true -> is_http (dict_get d k') = true ->
          dict_get d k = dict_get d k') ->
       _pick_url rt d = _pick_url_from URL_KEYS d).
Proof.
  assert (Hsome : forall keys u, _pick_url_from keys d = Some u ->
            exists k, k ∈ keys /\ dict_get d k = JStr u /\ is_http (JStr u) = true).
  { intros keys u Hu. destruct (pick_url_from_ok keys d u Hu) as (Hhttp & k & Hk & Hget).
    exists k. split; [exact Hk | ]. split; [exact Hget | exact Hhttp]. }
  assert (Hperm : forall keys1 keys2,
            keys1 ≡ₚ keys2 ->
            (forall k k', k ∈ keys1 -> k' ∈ keys1 ->
               is_http (dict_get d k) = true -> is_http (dict_get d k') = true ->
               dict_get d k = dict_get d k') ->
            _pick_url_from keys1 d = _pick_url_from keys2 d).
  { intros keys1 keys2 Hp Hagree.
    destruct (_pick_url_from keys1 d) as [u1 | ] eqn:H1.
    - destruct (Hsome _ _ H1) as (k1 & Hk1 & Hget1 & Hhttp1).
      destruct (_pick_url_from keys2 d) as [u2 | ] eqn:H2.
      + destruct (Hsome _ _ H2) as (k2 & Hk2 & Hget2 & Hhttp2).
        rewrite <- Hp in Hk2.
        assert (Heq : dict_get d k1 = dict_get d k2).
        { apply Hagree; [exact Hk1 | exact Hk2 | rewrite Hget1; exact Hhttp1
                         | rewrite Hget2; exact Hhttp2]. }
        rewrite Hget1, Hget2 in Heq. congruence.
      + apply pick_url_from_none with (k := k1) in H2; [ | rewrite <- Hp; exact Hk1].
        rewrite Hget1 in H2. congruence.
    - symmetry. apply pick_url_from_none. intros k Hk. rewrite <- Hp in Hk.
      apply (proj1 (pick_url_from_none keys1 d) H1 k Hk). }
  split; [intros keys; apply pick_url_from_none | ].
  split; [exact Hsome | ]. split; [exact Hperm | ].
  intros Hp Hagree. unfold _pick_url. apply Hperm; [exact Hp | ].
  intros k k' Hk Hk'. apply Hagree; rewrite <- Hp; assumption.
Qed.

Lemma chain_first_truthy (node : dict) (k1 k2 k3 k4 : string) :
  forall pre k post,
    [k1; k2; k3; k4] = pre ++ k :: post ->
    (forall k', k' ∈ pre -> truthy (dict_get node k') = false) ->
    truthy (dict_get node k) = true ->
    py_or (dict_get node k1)
      (py_or (dict_get node k2) (py_or (dict_get node k3) (dict_get node k4)))
    = dict_get node k.
Proof.
  intros pre k post Hsplit Hpre Hk. unfold py_or.
  destruct pre as [ | p1 [ | p2 [ | p3 [ | p4 pre ]]]]; simpl in Hsplit.
  - injection Hsplit as Ek _. rewrite Ek, Hk. reflexivity.
  - injection Hsplit as E1 Ek _. rewrite E1, Ek.
    rewrite (Hpre p1) by repeat constructor. rewrite Hk. reflexivity.
  - injection Hsplit as E1 E2 Ek _. rewrite E1, E2, Ek.
    rewrite (Hpre p1), (Hpre p2) by repeat constructor. rewrite Hk. reflexivity.
  - injection Hsplit as E1 E2 E3 Ek _. rewrite E1, E2, E3, Ek.
    rewrite (Hpre p1), (Hpre p2), (Hpre p3) by repeat constructor. reflexivity.
  - destruct pre; discriminate.
Qed.

Lemma chain_none_truthy (node : dict) (k1 k2 k3 k4 : string) :
  (forall k', k' ∈ [k1; k2; k3; k4] -> truthy (dict_get node k') = false) ->
  py_or (dict_get node k1)
    (py_or (dict_get node k2) (py_or (dict_get node k3) (dict_get node k4)))
  = dict_get node k4.
Proof.
  intros H. unfold py_or.
  rewrite (H k1), (H k2), (H k3) by repeat constructor. reflexivity.
Qed.

(** X2: each field of a node is read from the first of its alias keys, in
    the order of the source, that is bound to a present value, whatever the
    later aliases hold; when none is present the field is the value of the
    last alias (so a zero under "star_rating" is kept, a zero under "rating"
    is not). *)
Theorem aliases_are_tried_in_order (node : dict) :
  (forall keys field,
     (keys, field) ∈ [ (rating_keys, node_rating node); (price_keys, node_price_text node);
                       (address_keys, node_address node) ] ->
     (forall pre k post,
        keys = pre ++ k :: post ->
        (forall k', k' ∈ pre -> truthy (dict_get node k') = false) ->
        truthy (dict_get node k) = true ->
        field = dict_get node k)
     /\ ((forall k', k' ∈ keys -> truthy (dict_get node k') = false) ->
         exists pre last, keys = pre ++ [last] /\ field = dict_get node last))
  /\ (truthy (dict_get node "name") = true -> node_name node = dict_get node "name")
  /\ (truthy (dict_get node "name") = false -> node_name node = dict_get node "title").
Proof.
  split; [ | split].
  - intros keys field Hin.
    repeat (apply elem_of_cons in Hin as [[= -> ->] | Hin]);
      [ | | | apply elem_of_nil in Hin; contradiction ];
      (split;
       [ intros pre k post; apply chain_first_truthy
       | intros Hnone; eexists [_; _; _], _; split; [reflexivity | apply chain_none_truthy, Hnone ] ]).
  - intros H. unfold node_name, py_or. rewrite H. reflexivity.
  - intros H. unfold node_name, py_or. rewrite H. reflexivity.
Qed.

End ExtractorMore.

Section ExtractorShape.
Import hotel_backend spec.
Context (rt : Runtime).

Lemma flat_map_subtree {A} (sub : A -> json) (xs : list A) (v : json) :
  Forall (fun x => v ∈ preorder (sub x) ->
                   exists pre post, preorder (sub x) = pre ++ preorder v ++ post) xs ->
  v ∈ flat_map (fun x => preorder (sub x)) xs ->
  exists pre post, flat_map (fun x => preorder (sub x)) xs = pre ++ preorder v ++ post.
Proof.
  induction 1 as [ | x xs Hx _ IH ]; cbn [flat_map]; intros Hin.
  - apply elem_of_nil in Hin. contradiction.
  - apply elem_of_app in Hin as [Hin | Hin].
    + destruct (Hx Hin) as (pre & post & Heq).
      exists pre, (post ++ flat_map (fun x => preorder (sub x)) xs).
      rewrite Heq, <- !app_assoc. reflexivity.
    + destruct (IH Hin) as (pre & post & Heq).
      exists (preorder (sub x) ++ pre), post.
      rewrite Heq, <- !app_assoc. reflexivity.
Qed.

(** The nodes of a sub-tree sit together, in the same order, among the
    nodes of the tree. *)
Lemma preorder_subtree (data v : json) :
  v ∈ preorder data -> exists pre post, preorder data = pre ++ preorder v ++ post.
Proof.
  induction data as [ | b | z | f | s | items IH | members IH ] using json_ind;
    cbn [preorder]; intros Hin;
    apply elem_of_cons in Hin as [-> | Hin];
    try (exists [], []; rewrite app_nil_r; reflexivity);
    try (apply elem_of_nil in Hin; contradiction).
  - destruct (flat_map_subtree id items v IH Hin) as (pre & post & Heq).
    exists (JArr items :: pre), post.
    change (flat_map preorder items) with (flat_map (fun x => preorder (id x)) items).
    rewrite Heq. reflexivity.
  - destruct (flat_map_subtree snd members v IH Hin) as (pre & post & Heq).
    exists (JObj members :: pre), post. rewrite Heq. reflexivity.
Qed.

(** X3: wrapping does not hide candidates: the candidates of any sub-tree
    of the response are found when the whole response is walked, together
    and in the same order; an array of one value and an object that does not
    qualify itself add nothing to what their content gives. *)
Theorem walk_finds_candidates_of_every_subtree (data : json) :
  (forall v, v ∈ preorder data ->
     exists before after, walk rt data [] = before ++ walk rt v [] ++ after)
  /\ (forall v, v ∈ preorder data -> walk rt v [] `sublist_of` walk rt data [])
  /\ walk rt (JArr [data]) [] = walk rt data []
  /\ (forall k wrapper_rest,
        qualifies ((k, data) :: wrapper_rest) = false ->
        walk rt (JObj ((k, data) :: wrapper_rest)) []
        = walk rt data [] ++ walk rt (JArr (map snd wrapper_rest)) []).
Proof.
  assert (Hsub : forall v, v ∈ preorder data ->
            exists before after, walk rt data [] = before ++ walk rt v [] ++ after).
  { intros v Hv. destruct (preorder_subtree data v Hv) as (pre & post & Heq).
    exists (flat_map (emitted rt) pre), (flat_map (emitted rt) post).
    rewrite !walk_preorder. cbn [app]. rewrite Heq, !flat_map_app. reflexivity. }
  split; [exact Hsub | ]. split; [ | split].
  - intros v Hv. destruct (Hsub v Hv) as (before & after & ->).
    apply sublist_inserts_l, sublist_inserts_r. reflexivity.
  - rewrite !walk_preorder. cbn [app preorder flat_map emitted]. rewrite app_nil_r. reflexivity.
  - intros k wrapper_rest Hq. rewrite !walk_preorder.
    cbn [app preorder flat_map emitted snd]. rewrite Hq. cbn [app].
    rewrite flat_map_app. f_equal. clear Hq.
    induction wrapper_rest as [ | [k' v'] rest IH ]; [reflexivity | ].
    cbn [flat_map map snd]. rewrite !flat_map_app. f_equal.
    apply IH.
Qed.
End ExtractorShape.

Section ExtractorRows.
Import hotel_backend spec.
Context (rt : Runtime).

Lemma row_names (l : list Candidate) : map r_name (map row_of l) = map c_name l.
Proof. induction l as [ | h l IH ]; [reflexivity | ]. simpl. rewrite IH. reflexivity. Qed.

Lemma keep_first_names (l : list Candidate) (n : string) :
  n ∈ map c_name (keep_first l) <-> n ∈ map c_name l.
Proof.
  induction l as [ | h rest IH ]; [reflexivity | ].
  cbn [keep_first map]. rewrite !elem_of_cons, <- IH.
  split; (intros [-> | Hin]; [left; reflexivity | ]).
  - right. apply list_elem_of_fmap in Hin as (x & -> & Hx).
    apply list_elem_of_filter in Hx as [_ Hx].
    apply list_elem_of_fmap. exists x. split; [reflexivity | exact Hx].
  - destruct (decide (n = c_name h)) as [-> | Hne]; [left; reflexivity | right].
    apply list_elem_of_fmap in Hin as (x & -> & Hx).
    apply list_elem_of_fmap. exists x. split; [reflexivity | ].
    apply list_elem_of_filter. split; [exact Hne | exact Hx].
Qed.

Lemma take_prefix_le {A} (l : list A) (n m : nat) :
  (n <= m)%nat -> take n l `prefix_of` take m l.
Proof.
  intros Hle. replace n with (Nat.min n m) by lia.
  rewrite <- take_take. apply prefix_take.
Qed.

Lemma map_prefix {A B} (f : A -> B) (l1 l2 : list A) :
  l1 `prefix_of` l2 -> map f l1 `prefix_of` map f l2.
Proof. intros [k ->]. exists (map f k). apply map_app. Qed.

(** X4: no two rows returned by the extractor have the same name, and
    every row is the row of a candidate the walk found, the one met first
    with that name. *)
Theorem extracted_rows_have_distinct_names (data : json) (limit : Z) :
  NoDup (map r_name (_extract_hotels_from_serp_json rt data limit))
  /\ (forall r, r ∈ _extract_hotels_from_serp_json rt data limit ->
        exists before h after,
          walk rt data [] = before ++ h :: after
          /\ r = row_of h
          /\ c_name h ∉ map c_name before).
Proof.
  unfold _extract_hotels_from_serp_json. rewrite dedup_loop_keep_first.
  split.
  - rewrite row_names.
    apply (sublist_NoDup _ (map c_name (keep_first (walk rt data [])))).
    + apply keep_first_names_NoDup.
    + apply (fmap_sublist c_name), sublist_take.
  - intros r Hr. apply list_elem_of_fmap in Hr as (h & -> & Hh).
    assert (Hkept : h ∈ keep_first (walk rt data []))
      by (apply (elem_of_sublist _ _ _ Hh), sublist_take).
    clear Hh. revert Hkept. generalize (walk rt data []). intros found.
    induction found as [ | x rest IH ]; cbn [keep_first]; intros Hkept.
    + apply elem_of_nil in Hkept. contradiction.
    + apply elem_of_cons in Hkept as [-> | Hkept].
      * exists [], x, rest. split; [reflexivity | ]. split; [reflexivity | ].
        apply not_elem_of_nil.
      * apply list_elem_of_filter in Hkept as [Hne Hkept].
        destruct (IH Hkept) as (before & h' & after & Heq & Hrow & Hfirst).
        exists (x :: before), h', after. split; [rewrite Heq; reflexivity | ].
        split; [exact Hrow | ].
        cbn [map]. apply not_elem_of_cons. split; [ | exact Hfirst].
        unfold row_of in Hrow. injection Hrow as Hname _ _ _ _. congruence.
Qed.

(** X5: raising the limit only appends rows: the output for a smaller
    limit is a prefix of the output for a larger one.  When the limit is at
    least the number of different names, nothing is cut: the output has one
    row per name, and every name the walk found is the name of a row. *)
Theorem extracted_rows_grow_with_the_limit (data : json) (limit1 limit2 : Z) :
  (limit1 <= limit2 ->
     _extract_hotels_from_serp_json rt data limit1
       `prefix_of` _extract_hotels_from_serp_json rt data limit2)
  /\ (Z.of_nat (distinct_names (walk rt data [])) <= Z.max limit1 1 ->
       length (_extract_hotels_from_serp_json rt data limit1)
         = distinct_names (walk rt data [])
       /\ forall n, n ∈ map c_name (walk rt data [])
                    <-> n ∈ map r_name (_extract_hotels_from_serp_json rt data limit1)).
Proof.
  unfold _extract_hotels_from_serp_json. rewrite !dedup_loop_keep_first.
  split.
  - intros Hle. apply map_prefix, take_prefix_le. unfold stop_at. lia.
  - intros Hall. rewrite take_ge by (rewrite length_keep_first; unfold stop_at; lia).
    split; [rewrite length_map; apply length_keep_first | ].
    intros n. rewrite row_names. symmetry. apply keep_first_names.
Qed.
End ExtractorRows.

Lemma extracted_rows_grow_with_the_limit_witness :
  hotel_backend._extract_hotels_from_serp_json spec.sample_runtime spec.sample_serp 1
    `prefix_of` hotel_backend._extract_hotels_from_serp_json spec.sample_runtime spec.sample_serp 5
  /\ length (hotel_backend._extract_hotels_from_serp_json spec.sample_runtime spec.sample_serp 5)
     = 2%nat.
Proof.
  split.
  - apply (proj1 (extracted_rows_grow_with_the_limit
                    spec.sample_runtime spec.sample_serp 1 5)). lia.
  - apply (proj1 (proj2 (extracted_rows_grow_with_the_limit
                           spec.sample_runtime spec.sample_serp 5 5) ltac:(vm_compute; discriminate))).
Defined.

Lemma walk_finds_candidates_of_every_subtree_witness :
  hotel_backend.walk spec.sample_runtime (spec.hotel_node "B" "$80") []
    `sublist_of` hotel_backend.walk spec.sample_runtime spec.sample_serp [].
Proof.
  apply (proj1 (proj2 (walk_finds_candidates_of_every_subtree
                         spec.sample_runtime spec.sample_serp))).
  apply (list_elem_of_lookup_2 _ 5%nat). reflexivity.
Defined.

(** * Further properties of the gateway call and of the search *)

Section SearchMore.
Import hotel_backend spec.
Context (rt : Runtime).
Variable post : Request -> result Response.
Variable env : Env.

Lemma require_creds_present (key zone : string) :
  creds_present env key zone -> _require_creds env = Ok tt.
Proof.
  intros (Hk & Hz & Hk' & Hz'). unfold _require_creds. rewrite Hk, Hz. simpl.
  destruct (String.eqb_spec key ""); [contradiction | ].
  destruct (String.eqb_spec zone ""); [contradiction | ]. reflexivity.
Qed.

Lemma require_creds_inv :
  _require_creds env = Ok tt -> exists key zone, creds_present env key zone.
Proof.
  unfold _require_creds, creds_present.
  destruct (BRIGHT_API_KEY env) as [key | ]; [ | discriminate].
  destruct (BRIGHT_SERP_ZONE env) as [zone | ]; simpl;
    [ | rewrite orb_true_r; discriminate].
  destruct (String.eqb_spec key ""); [discriminate | ].
  destruct (String.eqb_spec zone ""); [discriminate | ].
  intros _. exists key, zone. tauto.
Qed.

(** X6: [serp_direct] returns a response only when both credentials are
    set and not empty, the gateway answered the one request sent, and the
    status is 2xx; that request goes to the fixed endpoint with the key as
    bearer token, the zone, the target url and the raw format, and a timeout
    of 60 seconds. *)
Theorem serp_direct_returns_only_authorized_2xx_responses (url : string) (resp : Response) :
  serp_direct post env url = Ok resp ->
  exists key zone req,
    creds_present env key zone
    /\ post req = Ok resp
    /\ 200 <= status_code resp < 300
    /\ req_endpoint req = "https://api.brightdata.com/request"
    /\ req_headers req = [ ("Authorization", "Bearer " +:+ key);
                           ("Content-Type", "application/json") ]
    /\ req_json req = [ ("zone", JStr zone); ("url", JStr url); ("format", JStr "raw") ]
    /\ req_timeout_s req = 60.
Proof.
  unfold serp_direct. intros H.
  destruct (_require_creds env) as [[] | e] eqn:Hcreds;
    cbn [mbind result_bind] in H; [ | discriminate H].
  destruct (require_creds_inv Hcreds) as (key & zone & Hpresent).
  pose proof Hpresent as (Hk & Hz & _ & _).
  rewrite Hk, Hz in H. cbn [str_of_opt json_of_opt] in H.
  match type of H with
  | context [post ?r] => destruct (post r) as [resp' | e] eqn:Hpost;
                         cbn [mbind result_bind] in H; [ | discriminate H];
                         exists key, zone, r
  end.
  unfold raise_for_status in H.
  destruct ((200 <=? status_code resp') && (status_code resp' <? 300)) eqn:Hstatus;
    cbn [mbind result_bind mret result_ret] in H; [ | discriminate H].
  injection H as <-.
  apply andb_true_iff in Hstatus as [Hlo Hhi].
  apply Z.leb_le in Hlo. apply Z.ltb_lt in Hhi.
  split; [exact Hpresent | ]. split; [exact Hpost | ]. split; [lia | ].
  repeat split; reflexivity.
Qed.

Lemma search_unfold (city_or_iata checkin checkout : string) (adults : Z)
    (currency country lang : string) (limit : Z) :
  search_hotels_google rt post env city_or_iata checkin checkout adults
    currency country lang limit
  = match serp_direct post env
            (hotels_url (resolve_city city_or_iata) checkin checkout adults currency country lang)
          ≫= resp_json with
    | Raise _ => Ok []
    | Ok data =>
        nights ← _nights checkin checkout;
        mret (map (assemble (resolve_city city_or_iata) nights)
                (_extract_hotels_from_serp_json rt data limit))
    end.
Proof. reflexivity. Qed.

Lemma search_gateway_failure
    (city_or_iata checkin checkout : string) (adults : Z)
    (currency country lang : string) (limit : Z) :
  (forall url, exists e, serp_direct post env url ≫= resp_json = Raise e) ->
  search_hotels_google rt post env city_or_iata checkin checkout adults
    currency country lang limit = Ok [].
Proof.
  intros Hfail. rewrite search_unfold.
  match goal with |- context [serp_direct post env ?u] => destruct (Hfail u) as [e ->] end.
  reflexivity.
Qed.

Lemma serp_fails_when_post_raises :
  (forall req, exists e, post req = Raise e) ->
  forall url, exists e, serp_direct post env url ≫= resp_json = Raise e.
Proof.
  intros Hpost url. unfold serp_direct.
  destruct (_require_creds env) as [[] | e]; [ | exists e; reflexivity].
  cbn [mbind result_bind].
  match goal with |- context [post ?r] => destruct (Hpost r) as [e ->] end.
  exists e. reflexivity.
Qed.

Lemma serp_fails_on_status :
  (forall req, exists resp, post req = Ok resp
                 /\ (status_code resp < 200 \/ 300 <= status_code resp)) ->
  forall url, exists e, serp_direct post env url ≫= resp_json = Raise e.
Proof.
  intros Hpost url. unfold serp_direct.
  destruct (_require_creds env) as [[] | e]; [ | exists e; reflexivity].
  cbn [mbind result_bind].
  match goal with |- context [post ?r] => destruct (Hpost r) as (resp & -> & Hstatus) end.
  cbn [mbind result_bind]. unfold raise_for_status.
  replace ((200 <=? status_code resp) && (status_code resp <? 300)) with false.
  - eexists. reflexivity.
  - symmetry. apply andb_false_iff.
    destruct Hstatus; [left; apply Z.leb_gt | right; apply Z.ltb_ge]; lia.
Qed.

Lemma serp_fails_on_body :
  (forall req, exists resp e, post req = Ok resp /\ resp_json resp = Raise e) ->
  forall url, exists e, serp_direct post env url ≫= resp_json = Raise e.
Proof.
  intros Hpost url. unfold serp_direct.
  destruct (_require_creds env) as [[] | e]; [ | exists e; reflexivity].
  cbn [mbind result_bind].
  match goal with |- context [post ?r] => destruct (Hpost r) as (resp & e & -> & Hjson) end.
  cbn [mbind result_bind].
  destruct (raise_for_status resp) as [[] | e']; [ | exists e'; reflexivity].
  cbn [mbind result_bind mret result_ret]. rewrite Hjson. exists e. reflexivity.
Qed.

Lemma search_never_raises
    (city_or_iata checkin checkout : string) (adults : Z)
    (currency country lang : string) (limit : Z) (e : exn) :
  search_hotels_google rt post env city_or_iata checkin checkout adults
    currency country lang limit <> Raise e.
Proof.
  rewrite search_unfold.
  destruct (serp_direct post env _ ≫= resp_json) as [data | e']; [ | discriminate].
  destruct (nights_total checkin checkout) as [nights ->]. discriminate.
Qed.

(** X7: an error of the gateway call never leaves the hotel search: it
    raises neither the configuration error nor an error of the transport, of
    the status or of the body.  Whenever it returns after the transport
    raised, after a status that is not 2xx or after a body that is not JSON,
    what it returns is the empty list; whenever it returns after a 2xx JSON
    answer with the credentials set, what it returns is the rows extracted
    from that body, assembled in order with the night count of the two
    dates. *)
Theorem search_degrades_to_empty_on_gateway_failure
    (city_or_iata checkin checkout : string) (adults : Z)
    (currency country lang : string) (limit : Z) :
  let searched :=
    search_hotels_google rt post env city_or_iata checkin checkout adults
      currency country lang limit in
  (forall msg status,
     searched <> Raise (BrightDataError msg) /\ searched <> Raise TransportError
     /\ searched <> Raise (HTTPStatusError status) /\ searched <> Raise JSONDecodeError)
  /\ (forall hotels, searched = Ok hotels ->
        ((forall req, exists e, post req = Raise e) -> hotels = [])
        /\ ((forall req, exists resp, post req = Ok resp
                          /\ (status_code resp < 200 \/ 300 <= status_code resp)) ->
            hotels = [])
        /\ ((forall req, exists resp e, post req = Ok resp /\ resp_json resp = Raise e) ->
            hotels = [])
        /\ (forall key zone status data,
              creds_present env key zone ->
              200 <= status < 300 ->
              (forall req, post req = Ok {| status_code := status; resp_json := Ok data |}) ->
              exists nights,
                _nights checkin checkout = Ok nights
                /\ hotels = map (assemble (resolve_city city_or_iata) nights)
                              (_extract_hotels_from_serp_json rt data limit))).
Proof.
  intros searched. unfold searched. clear searched.
  split.
  - intros msg status. repeat split; apply search_never_raises.
  - intros hotels Hsearch.
    assert (Hempty : (forall url, exists e, serp_direct post env url ≫= resp_json = Raise e) ->
                     hotels = []).
    { intros Hfail.
      rewrite (search_gateway_failure _ _ _ _ _ _ _ _ Hfail) in Hsearch. congruence. }
    split; [intros H; apply Hempty, serp_fails_when_post_raises, H | ].
    split; [intros H; apply Hempty, serp_fails_on_status, H | ].
    split; [intros H; apply Hempty, serp_fails_on_body, H | ].
    intros key zone status data Hpresent Hstatus Hpost.
    destruct (nights_total checkin checkout) as [nights Hnights].
    exists nights. split; [exact Hnights | ].
    rewrite search_unfold in Hsearch. unfold serp_direct in Hsearch.
    rewrite (require_creds_present key zone Hpresent) in Hsearch.
    cbn [mbind result_bind] in Hsearch. rewrite Hpost in Hsearch.
    cbn [mbind result_bind] in Hsearch. unfold raise_for_status in Hsearch.
    cbn [status_code] in Hsearch.
    replace ((200 <=? status) && (status <? 300)) with true in Hsearch
      by (symmetry; apply andb_true_iff; split; [apply Z.leb_le | apply Z.ltb_lt]; lia).
    cbn [mbind result_bind mret result_ret resp_json] in Hsearch.
    rewrite Hnights in Hsearch. unfold mbind, result_bind, mret, result_ret in Hsearch.
    injection Hsearch as <-. reflexivity.
Qed.

Lemma search_total (city_or_iata checkin checkout : string) (adults : Z)
    (currency country lang : string) (limit : Z) :
  exists hotels,
    search_hotels_google rt post env city_or_iata checkin checkout adults
      currency country lang limit = Ok hotels
    /\ (hotels = []
        \/ exists data nights,
             hotels = map (assemble (resolve_city city_or_iata) nights)
                        (_extract_hotels_from_serp_json rt data limit)).
Proof.
  rewrite search_unfold.
  destruct (serp_direct post env _ ≫= resp_json) as [data | e];
    [ | exists []; split; [reflexivity | left; reflexivity]].
  destruct (nights_total checkin checkout) as [nights ->].
  eexists. split; [reflexivity | ]. right. exists data, nights. reflexivity.
Qed.

Lemma assemble_record_ok (city : string) (nights : Z) (r : Row) :
  record_ok (assemble city nights r).
Proof.
  unfold record_ok, assemble. cbn [h_name h_area h_stars h_price_per_night_usd h_total_usd].
  split; [ | split; [ | split]].
  - destruct (String.eqb_spec (r_name r) ""); [discriminate | assumption].
  - unfold py_or. destruct (truthy (r_area r)) eqn:Harea; [exact Harea | reflexivity].
  - destruct (r_rating r) as [f | ]; [ | reflexivity].
    destruct (float_is_zero f) eqn:Hf; [reflexivity | exact Hf].
  - intros ->. reflexivity.
Qed.

(** X8: every record returned by [search_hotels_google] has a name that
    is not empty, an area that is not empty or null, a star value that is
    not zero, and a total only when it has a price per night; the list holds
    at most max(limit, 1) records. *)
Theorem search_records_are_filled_in
    (city_or_iata checkin checkout : string) (adults : Z)
    (currency country lang : string) (limit : Z) :
  exists hotels,
    search_hotels_google rt post env city_or_iata checkin checkout adults
      currency country lang limit = Ok hotels
    /\ Forall record_ok hotels
    /\ Z.of_nat (length hotels) <= Z.max limit 1.
Proof.
  destruct (search_total city_or_iata checkin checkout adults currency country lang limit)
    as (hotels & Hsearch & Hshape).
  exists hotels. split; [exact Hsearch | ].
  destruct Hshape as [-> | (data & nights & ->)].
  - split; [constructor | simpl; lia].
  - split.
    + apply Forall_forall. intros h Hh.
      apply list_elem_of_fmap in Hh as (r & -> & _). apply assemble_record_ok.
    + rewrite length_map. unfold _extract_hotels_from_serp_json.
      rewrite dedup_loop_keep_first, length_map, length_take. unfold stop_at. lia.
Qed.

(** X9: the command line never prints the error object: the hotel
    search never raises [BrightDataError], so the handler of the
    [__main__] block is never reached, and whatever the command line prints
    is the object with city, checkin, checkout, adults and the results that
    the search returned. *)
Theorem main_never_prints_the_error_object (args : Args) :
  (forall msg,
     search_hotels_google rt post env (arg_city args) (arg_checkin args)
       (arg_checkout args) (arg_adults args) "USD" "us" "en" (arg_limit args)
     <> Raise (BrightDataError msg))
  /\ (forall printed, main rt post env args = Ok printed ->
        exists hotels,
          search_hotels_google rt post env (arg_city args) (arg_checkin args)
            (arg_checkout args) (arg_adults args) "USD" "us" "en" (arg_limit args) = Ok hotels
          /\ printed
             = JObj [ ("city", JStr (arg_city args)); ("checkin", JStr (arg_checkin args));
                      ("checkout", JStr (arg_checkout args)); ("adults", JInt (arg_adults args));
                      ("results", JArr (map json_of_hotel hotels)) ])
  /\ (forall msg, main rt post env args <> Ok (JObj [ ("error", JStr msg) ])).
Proof.
  split; [intros msg; apply search_never_raises | ].
  destruct (search_total (arg_city args) (arg_checkin args) (arg_checkout args)
              (arg_adults args) "USD" "us" "en" (arg_limit args)) as (hotels & Hsearch & _).
  unfold main. rewrite Hsearch. cbn [mbind result_bind mret result_ret try_except_BrightDataError].
  split.
  - intros printed [= <-]. exists hotels. split; reflexivity.
  - intros msg. discriminate.
Qed.
End SearchMore.

(** * Further properties of price parsing and of URL quoting *)

Section PriceRange.
Import hotel_backend spec.

Lemma shr_1_nonneg (mrs : shr_record) : 0 <= shr_m mrs -> 0 <= shr_m (shr_1 mrs).
Proof.
  destruct mrs as [m r s']. cbn [shr_m]. intros Hm.
  destruct m as [ | [p | p | ] | p ]; cbn; lia.
Qed.

Lemma iter_pos_shr_1_nonneg (p : positive) :
  forall mrs, 0 <= shr_m mrs -> 0 <= shr_m (SpecFloat.iter_pos shr_1 p mrs).
Proof.
  induction p as [p IH | p IH | ]; intros mrs Hm; cbn [SpecFloat.iter_pos].
  - apply IH, IH, shr_1_nonneg, Hm.
  - apply IH, IH, Hm.
  - apply shr_1_nonneg, Hm.
Qed.

Lemma shr_fexp_nonneg (m e : Z) (l : location) :
  0 <= m -> 0 <= shr_m (fst (shr_fexp prec emax m e l)).
Proof.
  intros Hm. unfold shr_fexp, shr.
  assert (Hrec : 0 <= shr_m (shr_record_of_loc m l))
    by (destruct l as [ | [ | | ]]; exact Hm).
  destruct (_ - e) as [ | p | p ]; cbn [fst]; [exact Hrec | | exact Hrec].
  apply iter_pos_shr_1_nonneg, Hrec.
Qed.

Lemma round_nearest_even_nonneg (m : Z) (l : location) :
  0 <= m -> 0 <= round_nearest_even m l.
Proof.
  intros Hm. unfold round_nearest_even.
  destruct l as [ | [ | | ]]; [lia | destruct (Z.even m); lia | lia | lia].
Qed.

Lemma binary_round_aux_nonneg (m e : Z) (l : location) :
  0 <= m -> nonnegative_float (binary_round_aux prec emax false m e l).
Proof.
  intros Hm. unfold binary_round_aux.
  pose proof (shr_fexp_nonneg m e l Hm) as H1.
  destruct (shr_fexp prec emax m e l) as [mrs' e']. cbn [fst] in H1.
  pose proof (shr_fexp_nonneg _ e' loc_Exact
                (round_nearest_even_nonneg _ (loc_of_shr_record mrs') H1)) as H2.
  destruct (shr_fexp prec emax _ e' loc_Exact) as [mrs'' e'']. cbn [fst] in H2.
  destruct (shr_m mrs'') as [ | q | q ]; [exact I | | lia].
  destruct (e'' <=? emax - prec); exact I.
Qed.

Lemma float_of_Z_nonneg (n : Z) : 0 <= n -> nonnegative_float (float_of_Z n).
Proof.
  intros Hn. unfold float_of_Z, binary_normalize.
  destruct n as [ | p | p ]; [exact I | | lia].
  unfold binary_round.
  destruct (shl_align p 0 _) as [mz ez]. apply binary_round_aux_nonneg. lia.
Qed.

Lemma digit_value_nonneg (c : ascii) : is_digit c = true -> 0 <= digit_value c <= 9.
Proof.
  unfold is_digit, char_between, digit_value. intros H.
  apply andb_true_iff in H as [Hlo Hhi].
  apply N.leb_le in Hlo. apply N.leb_le in Hhi. lia.
Qed.

Lemma int_of_digits_from_nonneg (s : string) :
  forall acc, 0 <= acc -> all_chars is_digit s = true -> 0 <= int_of_digits_from acc s.
Proof.
  induction s as [ | c rest IH ]; intros acc Hacc Hs; cbn [int_of_digits_from]; [exact Hacc | ].
  cbn [all_chars] in Hs. apply andb_true_iff in Hs as [Hc Hrest].
  apply IH; [ | exact Hrest]. pose proof (digit_value_nonneg c Hc). lia.
Qed.

Lemma take_while_all (ok : ascii -> bool) (s : string) :
  all_chars ok (take_while ok s) = true.
Proof.
  induction s as [ | c rest IH ]; [reflexivity | ].
  cbn [take_while]. destruct (ok c) eqn:Hc; [ | reflexivity].
  cbn [all_chars]. rewrite Hc, IH. reflexivity.
Qed.

Lemma re_search_price_shape (s m : string) :
  re_search_price s = Some m ->
  exists d run, m = String d run /\ is_digit d = true
                /\ all_chars is_digit_or_comma run = true.
Proof.
  induction s as [ | c rest IH ]; cbn [re_search_price]; [discriminate | ].
  destruct (is_digit c) eqn:Hc; [ | exact IH].
  intros [= <-]. eexists _, _. split; [reflexivity | ]. split; [exact Hc | ].
  apply take_while_all.
Qed.

Lemma keep_chars_all (ok : ascii -> bool) (s : string) :
  all_chars ok (keep_chars ok s) = true.
Proof.
  induction s as [ | c rest IH ]; [reflexivity | ].
  cbn [keep_chars]. destruct (ok c) eqn:Hc; [ | exact IH].
  cbn [all_chars]. rewrite Hc, IH. reflexivity.
Qed.

(** X10: a parsed price is never negative and never NaN: it is the float
    of a natural number, so zero, a positive number or plus infinity.  A
    minus sign in front of the text is not read: "-5" and "5" give the same
    price. *)
Theorem price_is_never_negative (s : option string) (f : float) :
  (_to_price_usd s = Some f ->
     nonnegative_float f /\ exists n, 0 <= n /\ f = float_of_Z n)
  /\ (forall t, _to_price_usd (Some ("-" +:+ t)) = _to_price_usd (Some t)).
Proof.
  split.
  - unfold _to_price_usd. destruct s as [s | ]; [ | discriminate].
    destruct (String.eqb s ""); [discriminate | ].
    destruct (re_search_price s) as [m | ] eqn:Hm; [ | discriminate].
    intros [= <-].
    destruct (re_search_price_shape s m Hm) as (d & run & -> & Hd & Hrun).
    assert (Hall : all_chars is_digit_or_comma (String d run) = true).
    { cbn [all_chars]. unfold is_digit_or_comma at 1. rewrite Hd, Hrun. reflexivity. }
    assert (Hn : 0 <= int_of_digits (remove_commas (String d run))).
    { unfold int_of_digits. apply int_of_digits_from_nonneg; [lia | ].
      rewrite (remove_commas_digits _ Hall). apply keep_chars_all. }
    split; [apply float_of_Z_nonneg, Hn | ].
    eexists. split; [exact Hn | reflexivity].
  - intros t. unfold _to_price_usd. cbn [String.append re_search_price].
    change (is_digit "-") with false. cbv iota.
    destruct t as [ | c t ]; reflexivity.
Qed.
End PriceRange.

Lemma price_is_never_negative_witness :
  spec.nonnegative_float (float_of_Z 250)
  /\ exists n, 0 <= n /\ float_of_Z 250 = float_of_Z n.
Proof.
  apply (proj1 (price_is_never_negative (Some "-$250 off") (float_of_Z 250))).
  reflexivity.
Defined.

Section QuoteProperties.
Import hotel_backend spec.

Lemma hex_digit_unreserved (n : N) : (n < 16)%N -> is_unreserved (hex_digit n) = true.
Proof.
  intros Hn. remember (N.to_nat n) as i eqn:Hi.
  assert (Hni : n = N.of_nat i) by lia.
  assert (Hb : (i < 16)%nat) by lia.
  subst n. clear Hi Hn.
  do 16 (destruct i as [ | i ]; [reflexivity | ]). lia.
Qed.

Lemma unreserved_is_safe (c : ascii) : is_unreserved c = true -> url_safe c = true.
Proof. unfold url_safe. intros ->. reflexivity. Qed.

(** X11: the text produced by [quote_plus] holds only letters, digits and
    the characters _ . - ~ + and the percent sign; a space, an ampersand, an
    equals sign, a slash, a question mark or a hash never appears in it, so
    a quoted value cannot break out of its place in a query string. *)
Theorem quote_plus_output_is_url_safe (s : string) :
  all_chars url_safe (quote_plus s) = true
  /\ all_chars (fun c => negb (Ascii.eqb c " " || Ascii.eqb c "&" || Ascii.eqb c "="
                               || Ascii.eqb c "/" || Ascii.eqb c "?" || Ascii.eqb c "#"))
       (quote_plus s) = true.
Proof.
  assert (Hmono : forall t, all_chars url_safe t = true ->
            all_chars (fun c => negb (Ascii.eqb c " " || Ascii.eqb c "&" || Ascii.eqb c "="
                                      || Ascii.eqb c "/" || Ascii.eqb c "?" || Ascii.eqb c "#"))
              t = true).
  { induction t as [ | c t IH ]; [reflexivity | ].
    cbn [all_chars]. intros H. apply andb_true_iff in H as [Hc Ht].
    rewrite (IH Ht), andb_true_r.
    destruct (Ascii.eqb_spec c " ") as [-> | _]; [discriminate Hc | ].
    destruct (Ascii.eqb_spec c "&") as [-> | _]; [discriminate Hc | ].
    destruct (Ascii.eqb_spec c "=") as [-> | _]; [discriminate Hc | ].
    destruct (Ascii.eqb_spec c "/") as [-> | _]; [discriminate Hc | ].
    destruct (Ascii.eqb_spec c "?") as [-> | _]; [discriminate Hc | ].
    destruct (Ascii.eqb_spec c "#") as [-> | _]; [discriminate Hc | ].
    reflexivity. }
  assert (Hsafe : all_chars url_safe (quote_plus s) = true).
  { induction s as [ | c rest IH ]; [reflexivity | ].
    cbn [quote_plus].
    destruct (is_unreserved c) eqn:Hc.
    - cbn [all_chars]. rewrite (unreserved_is_safe c Hc), IH. reflexivity.
    - destruct (Ascii.eqb c " "); cbn [all_chars]; rewrite IH.
      + reflexivity.
      + pose proof (N_ascii_bounded c) as Hb.
        rewrite (unreserved_is_safe (hex_digit (N_of_ascii c / 16)))
          by (apply hex_digit_unreserved, N.Div0.div_lt_upper_bound; exact Hb).
        rewrite (unreserved_is_safe (hex_digit (N_of_ascii c mod 16)))
          by (apply hex_digit_unreserved, N.mod_lt; discriminate).
        reflexivity. }
  split; [exact Hsafe | apply Hmono, Hsafe].
Qed.

Lemma unquote_quote (s : string) : unquote_plus (quote_plus s) = s.
Proof.
  induction s as [ | c rest IH ]; [reflexivity | ].
  destruct c as [[] [] [] [] [] [] [] []];
    match goal with
    | |- unquote_plus (quote_plus (String ?c rest)) = _ =>
        change (String c (unquote_plus (quote_plus rest)) = String c rest)
    end;
    rewrite IH; reflexivity.
Qed.

Lemma append_cancel_l (p a b : string) : p +:+ a = p +:+ b -> a = b.
Proof.
  induction p as [ | c p IH ]; cbn [String.append]; [trivial | ].
  intros [= H]. apply IH, H.
Qed.

(** X12: [quote_plus] loses nothing: different texts are quoted
    differently, so two fallback links are the same only when the texts
    "name city" they were built from are the same. *)
Theorem quote_plus_is_injective (s1 s2 : string) :
  (quote_plus s1 = quote_plus s2 -> s1 = s2)
  /\ (forall name1 city1 name2 city2,
        fallback_url name1 city1 = fallback_url name2 city2 ->
        name1 +:+ " " +:+ city1 = name2 +:+ " " +:+ city2).
Proof.
  assert (Hinj : forall a b, quote_plus a = quote_plus b -> a = b).
  { intros a b H. rewrite <- (unquote_quote a), <- (unquote_quote b), H. reflexivity. }
  split; [apply Hinj | ].
  intros name1 city1 name2 city2 H. unfold fallback_url in H.
  apply Hinj. apply append_cancel_l in H. exact H.
Qed.
End QuoteProperties.

Lemma quote_plus_is_injective_witness : "Inn Miami" = "Inn Miami".
Proof.
  apply (proj1 (quote_plus_is_injective "Inn Miami" "Inn Miami")). reflexivity.
Defined.

(** * Further properties of the night count *)

Section NightsMore.
Import hotel_backend spec.

Lemma digit_char_spec (n : Z) :
  0 <= n <= 9 -> is_digit (digit_char n) = true /\ digit_value (digit_char n) = n.
Proof.
  intros Hn. remember (Z.to_nat n) as i eqn:Hi.
  assert (Hni : n = Z.of_nat i) by lia.
  assert (Hb : (i < 10)%nat) by lia.
  subst n. clear Hi Hn.
  do 10 (destruct i as [ | i ]; [split; reflexivity | ]). lia.
Qed.

Lemma re_char_digit (n : Z) (rest : string) :
  0 <= n <= 9 ->
  re_char is_digit (String (digit_char n) rest) = [(digit_char n, rest)].
Proof.
  intros Hn. unfold re_char. rewrite (proj1 (digit_char_spec n Hn)). reflexivity.
Qed.

Lemma string_app_cons (c : ascii) (a b : string) : String c a +:+ b = String c (a +:+ b).
Proof. reflexivity. Qed.

Lemma string_app_nil (b : string) : "" +:+ b = b.
Proof. reflexivity. Qed.

Lemma re_Y_pad4 (y : Z) (rest : string) :
  0 <= y <= 9999 -> re_Y (pad4 y +:+ rest) = [(y, rest)].
Proof.
  intros Hy. unfold re_Y, pad4. rewrite !string_app_cons, string_app_nil.
  assert (H1 : 0 <= y / 1000 <= 9) by (Z.div_mod_to_equations; lia).
  assert (H2 : 0 <= y / 100 mod 10 <= 9) by (Z.div_mod_to_equations; lia).
  assert (H3 : 0 <= y / 10 mod 10 <= 9) by (Z.div_mod_to_equations; lia).
  assert (H4 : 0 <= y mod 10 <= 9) by (Z.div_mod_to_equations; lia).
  rewrite (re_char_digit _ _ H1). cbn [mbind list_bind app].
  rewrite (re_char_digit _ _ H2). cbn [mbind list_bind app].
  rewrite (re_char_digit _ _ H3). cbn [mbind list_bind app].
  rewrite (re_char_digit _ _ H4). cbn [mbind list_bind app].
  rewrite (proj2 (digit_char_spec _ H1)), (proj2 (digit_char_spec _ H2)),
    (proj2 (digit_char_spec _ H3)), (proj2 (digit_char_spec _ H4)).
  do 2 f_equal. Z.div_mod_to_equations. lia.
Qed.
Lemma day_cases (d : Z) :
  1 <= d <= 31 ->
    d = 1 \/ d = 2 \/ d = 3 \/ d = 4 \/ d = 5 \/ d = 6 \/ d = 7 \/ d = 8 \/ d = 9 \/
    d = 10 \/ d = 11 \/ d = 12 \/ d = 13 \/ d = 14 \/ d = 15 \/ d = 16 \/ d = 17 \/
    d = 18 \/ d = 19 \/ d = 20 \/ d = 21 \/ d = 22 \/ d = 23 \/ d = 24 \/ d = 25 \/
    d = 26 \/ d = 27 \/ d = 28 \/ d = 29 \/ d = 30 \/ d = 31.
Proof. lia. Qed.

Lemma re_Ymd_isoformat (y m d : Z) :
  0 <= y <= 9999 -> 1 <= m <= 12 -> 1 <= d <= 31 ->
  head (re_Ymd (isoformat (mk_date y m d))) = Some (mk_date y m d, "").
Proof.
  intros Hy Hm Hd. unfold isoformat, re_Ymd. cbn [year month day].
  rewrite re_Y_pad4 by exact Hy. cbn [mbind list_bind app].
  pose proof (month_cases m Hm) as Hmc. pose proof (day_cases d Hd) as Hdc.
  repeat (destruct Hmc as [-> | Hmc]); try subst m;
    repeat (destruct Hdc as [-> | Hdc]); try subst d; vm_compute; reflexivity.
Qed.

Lemma strptime_isoformat (d : date) :
  valid_date d = true -> strptime_Ymd (isoformat d) = Ok d.
Proof.
  intros Hv. destruct (valid_date_bounds d Hv) as (Hy & Hm & Hd).
  assert (Hd31 : 1 <= day d <= 31).
  { split; [lia | ]. etransitivity; [apply Hd | ].
    unfold _days_in_month.
    destruct ((month d =? 2) && _is_leap (year d)); [lia | ].
    destruct (month_cases (month d) Hm) as
      [-> | [-> | [-> | [-> | [-> | [-> | [-> | [-> | [-> | [-> | [-> | ->]]]]]]]]]]];
      cbn; lia. }
  pose proof (re_Ymd_isoformat (year d) (month d) (day d) ltac:(lia) Hm Hd31) as Hhead.
  destruct d as [y m dd]. cbn [year month day] in *.
  unfold strptime_Ymd.
  destruct (re_Ymd (isoformat (mk_date y m dd))) as [ | [d' rest] tl ]; [discriminate | ].
  injection Hhead as -> ->. cbn [String.eqb negb]. rewrite Hv. reflexivity.
Qed.

(** X13: every calendar date written as zero-padded YYYY-MM-DD is read
    back as that date, so for two such dates [_nights] is the number of days
    from the first to the second, floored at one; a stay that ends on the
    next calendar day counts one night, across the ends of months and years
    and on leap days. *)
Theorem nights_of_iso_dates (d0 d1 : date) :
  valid_date d0 = true -> valid_date d1 = true ->
  strptime_Ymd (isoformat d0) = Ok d0
  /\ _nights (isoformat d0) (isoformat d1) = Ok (Z.max 1 (toordinal d1 - toordinal d0))
  /\ (d1 = next_day d0 -> _nights (isoformat d0) (isoformat d1) = Ok 1)
  /\ (date_lt d0 d1 ->
      _nights (isoformat d0) (isoformat d1) = Ok (toordinal d1 - toordinal d0)
      /\ 1 <= toordinal d1 - toordinal d0).
Proof.
  intros Hv0 Hv1.
  pose proof (strptime_isoformat d0 Hv0) as H0.
  pose proof (strptime_isoformat d1 Hv1) as H1.
  assert (Hn : _nights (isoformat d0) (isoformat d1)
               = Ok (Z.max 1 (toordinal d1 - toordinal d0))).
  { rewrite (nights_parsed _ _ _ _ H0 H1). reflexivity. }
  split; [exact H0 | ]. split; [exact Hn | ]. split.
  - intros Hnext. rewrite Hn, Hnext, toordinal_next_day by exact Hv0. f_equal. lia.
  - intros Hlt. pose proof (toordinal_lt d0 d1 Hv0 Hv1 Hlt).
    split; [rewrite Hn; f_equal; lia | lia].
Qed.
End NightsMore.

Lemma nights_of_iso_dates_witness :
  hotel_backend._nights "2024-02-28" "2024-03-01" = Ok 2
  /\ hotel_backend._nights "2025-12-31" "2026-01-01" = Ok 1.
Proof.
  split.
  - refine (proj1 (proj2 (proj2 (proj2 (nights_of_iso_dates
             (mk_date 2024 2 28) (mk_date 2024 3 1) eq_refl eq_refl))) _)).
    right. split; [reflexivity | ]. left. simpl. lia.
  - apply (proj1 (proj2 (proj2 (nights_of_iso_dates
             (mk_date 2025 12 31) (mk_date 2026 1 1) eq_refl eq_refl)))).
    reflexivity.
Defined.

(** * Properties of the Places requests *)

Section PlacesRequests.
Import google_places_requests spec.
Variable env_key : option string.
Variable format_float : float -> string.

Lemma get_key_done (api_key : option string) (key : string) :
  _get_key env_key api_key = Done key ->
  key <> "" /\ (api_key = Some key \/ (unset api_key /\ env_key = Some key)).
Proof.
  unfold _get_key, str_or, unset.
  destruct api_key as [a | ].
  - destruct (String.eqb_spec a "") as [-> | Ha].
    + destruct env_key as [k | ]; [ | discriminate].
      destruct (String.eqb_spec k "") as [-> | Hk]; [discriminate | ].
      intros [= <-]. split; [exact Hk | ]. right. split; [right | ]; reflexivity.
    + destruct (String.eqb_spec a "") as [-> | _]; [contradiction | ].
      intros [= <-]. split; [exact Ha | left; reflexivity].
  - destruct env_key as [k | ]; [ | discriminate].
    destruct (String.eqb_spec k "") as [-> | Hk]; [discriminate | ].
    intros [= <-]. split; [exact Hk | ]. right. split; [left | ]; reflexivity.
Qed.

(** X14: the key used is the one passed by the caller when it is set and
    not empty, whatever the environment holds; otherwise the one of the
    environment variable when that is set and not empty; otherwise
    [_get_key] raises the configuration error.  A key it returns is never
    empty. *)
Theorem get_key_prefers_the_argument (api_key : option string) :
  (forall key, api_key = Some key -> key <> "" -> _get_key env_key api_key = Done key)
  /\ (forall key, unset api_key -> env_key = Some key -> key <> "" ->
        _get_key env_key api_key = Done key)
  /\ (unset api_key -> unset env_key ->
      _get_key env_key api_key = Fail (RuntimeError key_error))
  /\ (forall key, _get_key env_key api_key = Done key ->
        key <> "" /\ (api_key = Some key \/ (unset api_key /\ env_key = Some key))).
Proof.
  split; [ | split; [ | split]].
  - intros key -> Hkey. unfold _get_key, str_or.
    destruct (String.eqb_spec key "") as [-> | _]; [contradiction | ].
    destruct (String.eqb_spec key "") as [-> | _]; [contradiction | reflexivity].
  - intros key Harg Henv Hkey. unfold _get_key, str_or.
    destruct Harg as [-> | ->]; cbn [String.eqb]; rewrite Henv;
      (destruct (String.eqb_spec key "") as [-> | _]; [contradiction | reflexivity]).
  - intros Harg Henv. unfold _get_key, str_or.
    destruct Harg as [-> | ->], Henv as [-> | ->]; reflexivity.
  - apply get_key_done.
Qed.

(** X15: without a key no request is sent: each of the three operations
    raises the configuration error before it reaches the transport, so the
    outcome is the same for every transport. *)
Theorem places_requests_need_a_key
    (get : string -> dict -> Z -> outcome Reply) (api_key : option string) :
  unset api_key -> unset env_key ->
  (forall query, text_search get env_key query api_key = Fail (RuntimeError key_error))
  /\ (forall lat lng radius keyword,
        nearby_search get env_key format_float lat lng radius keyword api_key
        = Fail (RuntimeError key_error))
  /\ (forall place_id fields,
        place_details get env_key place_id fields api_key = Fail (RuntimeError key_error)).
Proof.
  intros Harg Henv.
  assert (Hkey : _get_key env_key api_key = Fail (RuntimeError key_error)).
  { unfold _get_key, str_or. destruct Harg as [-> | ->], Henv as [-> | ->]; reflexivity. }
  split; [ | split]; intros; unfold text_search, nearby_search, place_details;
    rewrite Hkey; reflexivity.
Qed.

Lemma answer_unfold (r : outcome Reply) :
  (resp ← r; raise_for_status resp;; reply_json resp) = places_answer r.
Proof.
  destruct r as [reply | e]; [ | reflexivity].
  cbn [mbind outcome_bind places_answer]. unfold raise_for_status.
  destruct ((400 <=? reply_status reply) && (reply_status reply <? 600)); reflexivity.
Qed.

(** X16: with a key, each operation sends exactly one GET, with a timeout
    of 10 seconds, to its own path under the base URL.  The parameters hold
    the key; a nearby search holds location, radius and the keyword only when
    one is given and not empty; place details hold the place id and the field
    mask, joined with commas, only when the list of fields is not empty.  An
    error of the transport is passed on, a status from 400 to 599 raises, and
    for any other status the parsed body is returned. *)
Theorem places_requests_send_one_get
    (get : string -> dict -> Z -> outcome Reply) (api_key : option string) (key : string) :
  _get_key env_key api_key = Done key ->
  (forall query,
     text_search get env_key query api_key
     = places_answer (get "https://maps.googleapis.com/maps/api/place/textsearch/json"
                        [ ("query", JStr query); ("key", JStr key) ] 10))
  /\ (forall lat lng radius keyword,
        exists params,
          nearby_search get env_key format_float lat lng radius keyword api_key
          = places_answer (get "https://maps.googleapis.com/maps/api/place/nearbysearch/json"
                             params 10)
          /\ dict_lookup "location" params
             = Some (JStr (format_float lat +:+ "," +:+ format_float lng))
          /\ dict_lookup "radius" params = Some (JInt radius)
          /\ dict_lookup "key" params = Some (JStr key)
          /\ dict_lookup "keyword" params
             = match keyword with
               | Some kw => if String.eqb kw "" then None else Some (JStr kw)
               | None => None
               end
          /\ NoDup (map fst params))
  /\ (forall place_id fields,
        exists params,
          place_details get env_key place_id fields api_key
          = places_answer (get "https://maps.googleapis.com/maps/api/place/details/json"
                             params 10)
          /\ dict_lookup "place_id" params = Some (JStr place_id)
          /\ dict_lookup "key" params = Some (JStr key)
          /\ dict_lookup "fields" params
             = match fields with
               | Some (f :: fs) => Some (JStr (join "," (f :: fs)))
               | _ => None
               end
          /\ NoDup (map fst params)).
Proof.
  intros Hkey. split; [ | split].
  - intros query. unfold text_search. rewrite Hkey. cbn [mbind outcome_bind].
    apply answer_unfold.
  - intros lat lng radius keyword. unfold nearby_search. rewrite Hkey.
    cbn [mbind outcome_bind]. eexists. split; [apply answer_unfold | ].
    destruct keyword as [kw | ]; [destruct (String.eqb kw "") | ];
      (repeat split; try reflexivity; apply (bool_decide_unpack _); vm_compute; exact I).
  - intros place_id fields. unfold place_details. rewrite Hkey.
    cbn [mbind outcome_bind]. eexists. split; [apply answer_unfold | ].
    destruct fields as [[ | f fs] | ];
      (repeat split; try reflexivity; apply (bool_decide_unpack _); vm_compute; exact I).
Qed.
End PlacesRequests.

(** Closed instances of the further properties. *)

Lemma pick_url_complete_and_order_independent_witness :
  hotel_backend._pick_url_from ["link"; "maps_url"; "url"] spec.two_links
  = hotel_backend._pick_url_from ["url"; "maps_url"; "link"] spec.two_links
  /\ hotel_backend._pick_url_from ["maps_url"; "place_link"] spec.two_links = None.
Proof.
  destruct (pick_url_complete_and_order_independent spec.sample_runtime spec.two_links)
    as (Hnone & _ & Hperm & _).
  split.
  - apply Hperm.
    + apply (bool_decide_unpack _). vm_compute. exact I.
    + intros k k' Hk Hk' Hhttp Hhttp'.
      repeat (apply elem_of_cons in Hk as [-> | Hk]);
        repeat (apply elem_of_cons in Hk' as [-> | Hk']);
        try (apply elem_of_nil in Hk; contradiction);
        try (apply elem_of_nil in Hk'; contradiction);
        try reflexivity; discriminate.
  - apply Hnone. intros k Hk.
    repeat (apply elem_of_cons in Hk as [-> | Hk]); try reflexivity.
    apply elem_of_nil in Hk. contradiction.
Defined.

Lemma aliases_are_tried_in_order_witness :
  hotel_backend.node_rating spec.two_links = JInt 4.
Proof.
  refine (proj1 (proj1 (aliases_are_tried_in_order spec.two_links)
                   spec.rating_keys (hotel_backend.node_rating spec.two_links) _)
            ["overall_rating"; "rating"] "stars" ["star_rating"] eq_refl _ eq_refl).
  - left.
  - intros k Hk. repeat (apply elem_of_cons in Hk as [-> | Hk]); try reflexivity.
    apply elem_of_nil in Hk. contradiction.
Defined.

Lemma serp_direct_returns_only_authorized_2xx_responses_witness :
  exists key zone req,
    spec.creds_present spec.sample_env key zone
    /\ spec.respond JNull req = Ok {| hotel_backend.status_code := 200;
                                      hotel_backend.resp_json := Ok JNull |}
    /\ hotel_backend.req_json req
       = [ ("zone", JStr zone); ("url", JStr "https://www.google.com/travel/hotels?q=x");
           ("format", JStr "raw") ].
Proof.
  destruct (serp_direct_returns_only_authorized_2xx_responses
              (spec.respond JNull) spec.sample_env "https://www.google.com/travel/hotels?q=x"
              {| hotel_backend.status_code := 200; hotel_backend.resp_json := Ok JNull |}
              eq_refl)
    as (key & zone & req & Hcreds & Hpost & _ & _ & _ & Hjson & _).
  exists key, zone, req. split; [exact Hcreds | ]. split; [exact Hpost | exact Hjson].
Defined.

Lemma search_degrades_to_empty_on_gateway_failure_witness :
  (([] : list hotel_backend.Hotel) = [] /\ ([] : list hotel_backend.Hotel) = []
   /\ ([] : list hotel_backend.Hotel) = [])
  /\ exists nights,
       hotel_backend._nights "2025-12-05" "2025-12-08" = Ok nights
       /\ map (hotel_backend.assemble "Miami" 3)
            (hotel_backend._extract_hotels_from_serp_json spec.sample_runtime
               spec.linked_room 12)
          = map (hotel_backend.assemble (hotel_backend.resolve_city "MIA") nights)
              (hotel_backend._extract_hotels_from_serp_json spec.sample_runtime
                 spec.linked_room 12).
Proof.
  split; [split; [ | split] | ].
  - refine (proj1 (proj2 (search_degrades_to_empty_on_gateway_failure
                     spec.sample_runtime spec.failing_post spec.sample_env
                     "MIA" "2025-12-05" "2025-12-08" 2 "USD" "us" "en" 12) [] eq_refl) _).
    intros req. exists TransportError. reflexivity.
  - refine (proj1 (proj2 (proj2 (search_degrades_to_empty_on_gateway_failure
                     spec.sample_runtime spec.busy_post spec.sample_env
                     "MIA" "2025-12-05" "2025-12-08" 2 "USD" "us" "en" 12) [] eq_refl)) _).
    intros req. eexists. split; [reflexivity | ]. right. simpl. lia.
  - refine (proj1 (proj2 (proj2 (proj2 (search_degrades_to_empty_on_gateway_failure
                     spec.sample_runtime spec.html_post spec.sample_env
                     "MIA" "2025-12-05" "2025-12-08" 2 "USD" "us" "en" 12) [] eq_refl))) _).
    intros req. eexists _, JSONDecodeError. split; reflexivity.
  - refine (proj2 (proj2 (proj2 (proj2 (search_degrades_to_empty_on_gateway_failure
                     spec.sample_runtime (spec.respond spec.linked_room) spec.sample_env
                     "MIA" "2025-12-05" "2025-12-08" 2 "USD" "us" "en" 12) _ eq_refl)))
              "key" "serp_api1" 200 spec.linked_room _ _ _).
    + repeat split; discriminate.
    + lia.
    + intros req. reflexivity.
Defined.

Lemma main_never_prints_the_error_object_witness :
  exists hotels,
    hotel_backend.search_hotels_google spec.sample_runtime spec.busy_post spec.sample_env
      "MIA" "2025-12-05" "2025-12-08" 2 "USD" "us" "en" 8 = Ok hotels
    /\ JObj [ ("city", JStr "MIA"); ("checkin", JStr "2025-12-05");
              ("checkout", JStr "2025-12-08"); ("adults", JInt 2); ("results", JArr []) ]
       = JObj [ ("city", JStr "MIA"); ("checkin", JStr "2025-12-05");
                ("checkout", JStr "2025-12-08"); ("adults", JInt 2);
                ("results", JArr (map hotel_backend.json_of_hotel hotels)) ].
Proof.
  apply (proj1 (proj2 (main_never_prints_the_error_object spec.sample_runtime
                         spec.busy_post spec.sample_env spec.sample_args))).
  reflexivity.
Defined.

Lemma get_key_prefers_the_argument_witness :
  google_places_requests._get_key (Some "env-key") (Some "arg-key")
  = google_places_requests.Done "arg-key"
  /\ google_places_requests._get_key (Some "env-key") (Some "")
     = google_places_requests.Done "env-key"
  /\ google_places_requests._get_key (Some "") None
     = google_places_requests.Fail
         (google_places_requests.RuntimeError google_places_requests.key_error).
Proof.
  split; [ | split].
  - apply (proj1 (get_key_prefers_the_argument (Some "env-key") (Some "arg-key")));
      [reflexivity | discriminate].
  - apply (proj1 (proj2 (get_key_prefers_the_argument (Some "env-key") (Some ""))));
      [right; reflexivity | reflexivity | discriminate].
  - apply (proj1 (proj2 (proj2 (get_key_prefers_the_argument (Some "") None))));
      [left; reflexivity | right; reflexivity].
Defined.

Lemma places_requests_need_a_key_witness :
  google_places_requests.text_search spec.redirect_get None "coffee" (Some "")
  = google_places_requests.Fail
      (google_places_requests.RuntimeError google_places_requests.key_error).
Proof.
  apply (proj1 (places_requests_need_a_key None spec.sample_format_float
                  spec.redirect_get (Some "") ltac:(right; reflexivity) ltac:(left; reflexivity))).
Defined.

Lemma places_requests_send_one_get_witness :
  google_places_requests.text_search spec.redirect_get (Some "k") "coffee" None
  = google_places_requests.Done (JStr "moved")
  /\ google_places_requests.text_search spec.no_get (Some "k") "coffee" None
     = google_places_requests.Fail google_places_requests.RequestException.
Proof.
  split.
  - apply (proj1 (places_requests_send_one_get (Some "k") spec.sample_format_float
                    spec.redirect_get None "k" eq_refl)).
  - apply (proj1 (places_requests_send_one_get (Some "k") spec.sample_format_float
                    spec.no_get None "k" eq_refl)).
Defined.
